(** * Standardised JSON responses: the [responses] package

    A shallow embedding of the response-assembly pipeline of the Go
    package [utils/responses]:

    - the status registry ([statusConfigMap], [getMessageForStatus],
      [validateStatusCode]),
    - the client-IP resolver ([getClientIP]) and [extractRequestInfo],
    - the two dispatchers, [HTTPResponse] and its older sibling
      [JSONResponse],
    - the part of [encoding/json] that decides how a [Response] is laid
      out on the wire (struct tags, [omitempty]).

    Effects are modelled as a chronological trace of the calls the
    dispatcher makes on its [http.ResponseWriter] and on the package
    logger.  Go's [int] is a 64-bit integer; status codes are only ever
    compared with constants, so they are carried as [Z]. *)

From Stdlib Require Import ZArith String Ascii DecimalString.
From stdpp Require Import base numbers option list strings gmap.

Local Open Scope string_scope.
Local Open Scope list_scope.
Local Open Scope Z_scope.
Local Set Warnings "-register-all".

(** ** [log/slog] levels and [net/http] status constants *)

Module slog.
Definition Level := Z.
Definition LevelDebug : Level := -4.
Definition LevelInfo : Level := 0.
Definition LevelWarn : Level := 4.
Definition LevelError : Level := 8.
End slog.

Module http.
Definition StatusOK := 200.
Definition StatusCreated := 201.
Definition StatusAccepted := 202.
Definition StatusNoContent := 204.
Definition StatusBadRequest := 400.
Definition StatusUnauthorized := 401.
Definition StatusForbidden := 403.
Definition StatusNotFound := 404.
Definition StatusMethodNotAllowed := 405.
Definition StatusConflict := 409.
Definition StatusUnprocessableEntity := 422.
Definition StatusTooManyRequests := 429.
Definition StatusInternalServerError := 500.
Definition StatusNotImplemented := 501.
Definition StatusBadGateway := 502.
Definition StatusServiceUnavailable := 503.
Definition StatusGatewayTimeout := 504.
Definition StatusHTTPVersionNotSupported := 505.
Definition StatusVariantAlsoNegotiates := 506.
End http.

(** ** status_map.go *)

(** [StatusConfig]: log level, default message and error type of one
    status code.  A field left out of a Go composite literal holds its
    zero value, the empty string for [ErrorType]. *)
Record StatusConfig := {
  LogLevel : slog.Level;
  DefaultMessage : string;
  ErrorType : string;
}.

Definition statusConfigMap : gmap Z StatusConfig :=
  list_to_map [
    (* Success responses *)
    (http.StatusOK,
      {| DefaultMessage := "Request was successful";
         LogLevel := slog.LevelInfo; ErrorType := "" |});
    (http.StatusCreated,
      {| DefaultMessage := "Resource created successfully";
         LogLevel := slog.LevelInfo; ErrorType := "" |});
    (http.StatusAccepted,
      {| DefaultMessage := "Request accepted";
         LogLevel := slog.LevelInfo; ErrorType := "" |});
    (http.StatusNoContent,
      {| DefaultMessage := "Request completed successfully";
         LogLevel := slog.LevelInfo; ErrorType := "" |});
    (* Client error responses *)
    (http.StatusBadRequest,
      {| DefaultMessage := "The request contains invalid data";
         LogLevel := slog.LevelWarn; ErrorType := "validation_error" |});
    (http.StatusUnauthorized,
      {| DefaultMessage := "Authentication is required to access this resource";
         LogLevel := slog.LevelWarn; ErrorType := "authentication_error" |});
    (http.StatusForbidden,
      {| DefaultMessage := "You do not have permission to access this resource";
         LogLevel := slog.LevelWarn; ErrorType := "authorization_error" |});
    (http.StatusNotFound,
      {| DefaultMessage := "The requested resource was not found";
         LogLevel := slog.LevelInfo; ErrorType := "not_found" |});
    (http.StatusMethodNotAllowed,
      {| DefaultMessage := "The requested method is not allowed for this resource";
         LogLevel := slog.LevelWarn; ErrorType := "method_not_allowed" |});
    (http.StatusConflict,
      {| DefaultMessage := "The request could not be completed due to a conflict with the current state of the resource";
         LogLevel := slog.LevelWarn; ErrorType := "conflict" |});
    (http.StatusUnprocessableEntity,
      {| DefaultMessage := "The request was well-formed but could not be processed due to semantic errors";
         LogLevel := slog.LevelWarn; ErrorType := "unprocessable_entity" |});
    (http.StatusTooManyRequests,
      {| DefaultMessage := "Too many requests have been made in a given amount of time";
         LogLevel := slog.LevelWarn; ErrorType := "rate_limit_exceeded" |});
    (* Server error responses *)
    (http.StatusInternalServerError,
      {| DefaultMessage := "An unexpected error occurred on the server";
         LogLevel := slog.LevelError; ErrorType := "internal_server_error" |});
    (http.StatusNotImplemented,
      {| DefaultMessage := "The requested functionality is not implemented";
         LogLevel := slog.LevelError; ErrorType := "not_implemented" |});
    (http.StatusBadGateway,
      {| DefaultMessage := "The server received an invalid response from an upstream server";
         LogLevel := slog.LevelError; ErrorType := "bad_gateway" |});
    (http.StatusServiceUnavailable,
      {| DefaultMessage := "The server is currently unable to handle the request due to temporary overload or maintenance";
         LogLevel := slog.LevelError; ErrorType := "service_unavailable" |});
    (http.StatusGatewayTimeout,
      {| DefaultMessage := "The server did not receive a timely response from an upstream server";
         LogLevel := slog.LevelError; ErrorType := "gateway_timeout" |});
    (http.StatusHTTPVersionNotSupported,
      {| DefaultMessage := "The server does not support the HTTP protocol version used in the request";
         LogLevel := slog.LevelError; ErrorType := "http_version_not_supported" |});
    (http.StatusVariantAlsoNegotiates,
      {| DefaultMessage := "The server has an internal configuration error and cannot complete the request";
         LogLevel := slog.LevelError; ErrorType := "variant_also_negotiates" |})
  ].

(** [getMessageForStatus], over the current content [m] of the
    package-level map.  The [switch] is tried top to bottom. *)
Definition getMessageForStatus (m : gmap Z StatusConfig)
    (statusCode : Z) (providedMessage : string) : string :=
  if bool_decide (providedMessage ≠ "") then providedMessage
  else match m !! statusCode with
  | Some config => DefaultMessage config
  | None =>
      if (statusCode >=? 200) && (statusCode <? 300) then
        "Request completed successfully"
      else if (statusCode >=? 300) && (statusCode <? 400) then
        "Request requires further action"
      else if (statusCode >=? 400) && (statusCode <? 500) then
        "Client error occurred"
      else if statusCode >=? 500 then
        "Server error occurred"
      else
        "Response completed"
  end.

(** [GetStatusConfig]: the Go pair [(cfg, exists)] as an option. *)
Definition GetStatusConfig (m : gmap Z StatusConfig) (statusCode : Z)
    : option StatusConfig :=
  m !! statusCode.

(** ** The Go standard library, as far as this package calls it

    [strings.TrimSpace], [net.ParseIP], [net.SplitHostPort] and the
    string-literal encoder of [encoding/json] are library code.  The
    package is embedded over an arbitrary implementation of them, so
    that what is proved does not depend on a Go release; [asciiLib]
    below is an executable instance for ASCII input. *)

Inductive GoError :=
  | UnsupportedTypeError (ty : string)   (* json: unsupported type *)
  | AddrError (why addr : string)        (* net.SplitHostPort *)
  | WriteError (msg : string).           (* returned by ResponseWriter.Write *)

Inductive result (A : Type) :=
  | Ok (a : A)
  | Err (e : GoError).
Arguments Ok {A} a.
Arguments Err {A} e.

Class GoLib := {
  (** [net.IP], the parsed form of an address *)
  IP : Type;
  (** [strings.TrimSpace] *)
  strings_TrimSpace : string → string;
  (** [net.ParseIP]: [None] is the nil [IP] *)
  net_ParseIP : string → option IP;
  (** [net.SplitHostPort]: [(host, port)] or an error *)
  net_SplitHostPort : string → result (string * string);
  (** the JSON string literal [encoding/json] writes for a Go string *)
  json_quote : string → string;
}.

(** [strings.Split(s, sep)] for a separator of one byte: the substrings
    between the separators, [[s]] when there is none, [[""]] for the
    empty string. *)
Fixpoint strings_Split (s : string) (sep : ascii) : list string :=
  match s with
  | EmptyString => [""]
  | String c s' =>
      if Ascii.eqb c sep then "" :: strings_Split s' sep
      else match strings_Split s' sep with
           | t :: ts => String c t :: ts
           | [] => [String c ""]
           end
  end.

(** *** [net/textproto]: canonical header keys *)

Definition is_lower (c : ascii) : bool :=
  let n := nat_of_ascii c in (97 <=? n)%nat && (n <=? 122)%nat.
Definition is_upper (c : ascii) : bool :=
  let n := nat_of_ascii c in (65 <=? n)%nat && (n <=? 90)%nat.
Definition is_digit (c : ascii) : bool :=
  let n := nat_of_ascii c in (48 <=? n)%nat && (n <=? 57)%nat.
Definition to_upper (c : ascii) : ascii :=
  if is_lower c then ascii_of_nat (nat_of_ascii c - 32) else c.
Definition to_lower (c : ascii) : ascii :=
  if is_upper c then ascii_of_nat (nat_of_ascii c + 32) else c.

(** [validHeaderFieldByte]: the token characters of RFC 7230. *)
Definition validHeaderFieldByte (c : ascii) : bool :=
  is_lower c || is_upper c || is_digit c ||
  bool_decide (c ∈ list_ascii_of_string "!#$%&'*+-.^_`|~").

Fixpoint canonicalize (upper : bool) (s : string) : string :=
  match s with
  | EmptyString => EmptyString
  | String c s' =>
      let c' := if upper then to_upper c else to_lower c in
      String c' (canonicalize (Ascii.eqb c' "-") s')
  end.

(** [textproto.CanonicalMIMEHeaderKey]: first letter and every letter
    after a hyphen in upper case, the others in lower case; a key with
    a byte that is not a token character is returned unchanged. *)
Definition CanonicalMIMEHeaderKey (s : string) : string :=
  if forallb validHeaderFieldByte (list_ascii_of_string s)
  then canonicalize true s else s.

(** ** [net/http]: requests *)

(** [context.Context]: the background context, or the context a request
    carries. *)
Inductive Context :=
  | Background
  | RequestContext (id : N).

(** A request as the server hands it to a handler: its [URL] is not
    nil, and only the fields the package reads are kept.
    [http.Header] is [map[string][]string]. *)
Record Request := {
  Method : string;
  URL_Path : string;
  Header : gmap string (list string);
  RemoteAddr : string;
  Ctx : Context;
}.

(** [Header.Get]: the first value stored under the canonical form of
    [key], the empty string when there is none. *)
Definition Header_Get (h : gmap string (list string)) (key : string) : string :=
  match h !! CanonicalMIMEHeaderKey key with
  | Some (v :: _) => v
  | _ => ""
  end.

(** [Request.UserAgent] *)
Definition UserAgent (r : Request) : string :=
  Header_Get (Header r) "User-Agent".

(** ** types.go *)

(** [RequestInfo]; its zero value has four empty strings. *)
Record RequestInfo := {
  ri_Method : string;
  ri_Path : string;
  ri_UserAgent : string;
  ri_RemoteIP : string;
}.

Definition RequestInfo_zero : RequestInfo :=
  {| ri_Method := ""; ri_Path := ""; ri_UserAgent := ""; ri_RemoteIP := "" |}.

(** ** extract.go *)

Section extract.
Context `{GoLib}.

(** The body of the [for _, ip := range ips] loop of [getClientIP]:
    [Some ip] when the loop returns [ip], [None] when it runs out. *)
Fixpoint firstValidIP (ips : list string) : option string :=
  match ips with
  | [] => None
  | ip :: rest =>
      let ip := strings_TrimSpace ip in
      if net_ParseIP ip is Some _ then Some ip else firstValidIP rest
  end.

Definition getClientIP (r : Request) : string :=
  let forwarded := Header_Get (Header r) "X-Forwarded-For" in
  let fromForwarded :=
    if bool_decide (forwarded ≠ "")
    then firstValidIP (strings_Split forwarded ",")
    else None in
  match fromForwarded with
  | Some ip => ip
  | None =>
  let xRealIP := Header_Get (Header r) "X-Real-IP" in
  let fromRealIP :=
    if bool_decide (xRealIP ≠ "") then
      let ip := strings_TrimSpace xRealIP in
      if net_ParseIP ip is Some _ then Some ip else None
    else None in
  match fromRealIP with
  | Some ip => ip
  | None =>
  match net_SplitHostPort (RemoteAddr r) with
  | Ok (ip, _) =>
      if net_ParseIP ip is Some _ then ip else RemoteAddr r
  | Err _ => RemoteAddr r
  end
  end
  end.

Definition extractRequestInfo (r : Request) : RequestInfo :=
  {| ri_Method := Method r;
     ri_Path := URL_Path r;
     ri_UserAgent := UserAgent r;
     ri_RemoteIP := getClientIP r |}.
End extract.

(** ** [encoding/json]: how a Go value is laid out as JSON *)

(** A struct field as [encoding/json] sees it: the key of its [json]
    tag and whether the tag asks for [omitempty]. *)
Record FieldTag := {
  tag_name : string;
  tag_omitempty : bool;
}.

(** Go values by kind, as reflection presents them to the encoder.
    [None] is the nil slice, map, pointer or interface.  Channels and
    functions stand for the kinds the encoder rejects. *)
Inductive Value :=
  | VBool (b : bool)
  | VInt (n : Z)
  | VString (s : string)
  | VSlice (xs : option (list Value))
  | VMap (kvs : option (list (string * Value)))
  | VPtr (p : option Value)
  | VInterface (v : option Value)
  | VStruct (fields : list (FieldTag * Value))
  | VChan
  | VFunc.

(** A JSON document.  An object keeps its members in the order they
    are written. *)
Inductive JSON :=
  | JNull
  | JBool (b : bool)
  | JNumber (n : Z)
  | JString (s : string)
  | JArray (items : list JSON)
  | JObject (members : list (string * JSON)).

(** [isEmptyValue]: what [omitempty] leaves out: false, 0, a nil
    pointer, a nil interface value, and any empty slice, map or
    string. *)
Definition isEmptyValue (v : Value) : bool :=
  match v with
  | VBool b => negb b
  | VInt n => n =? 0
  | VString s => bool_decide (s = "")
  | VSlice None | VMap None | VPtr None | VInterface None => true
  | VSlice (Some xs) => bool_decide (xs = [])
  | VMap (Some kvs) => bool_decide (kvs = [])
  | _ => false
  end.

(** A map is written with its keys in increasing byte order. *)
Fixpoint insert_by_key {A} (k : string) (a : A) (l : list (string * A))
    : list (string * A) :=
  match l with
  | [] => [(k, a)]
  | (k', a') :: l' =>
      if String.leb k k' then (k, a) :: l
      else (k', a') :: insert_by_key k a l'
  end.

Definition sort_by_key {A} (l : list (string * A)) : list (string * A) :=
  foldr (λ '(k, a) acc, insert_by_key k a acc) [] l.

(** The first error of a list of results, or all their values. *)
Fixpoint sequence {A} (l : list (result A)) : result (list A) :=
  match l with
  | [] => Ok []
  | Err e :: _ => Err e
  | Ok a :: l' =>
      match sequence l' with
      | Ok l'' => Ok (a :: l'')
      | Err e => Err e
      end
  end.

Fixpoint sequence_snd {A} (l : list (string * result A))
    : result (list (string * A)) :=
  match l with
  | [] => Ok []
  | (_, Err e) :: _ => Err e
  | (k, Ok a) :: l' =>
      match sequence_snd l' with
      | Ok l'' => Ok ((k, a) :: l'')
      | Err e => Err e
      end
  end.

Definition result_map {A B} (f : A → B) (r : result A) : result B :=
  match r with
  | Ok a => Ok (f a)
  | Err e => Err e
  end.

(** [json.Marshal], up to the document it describes. *)
Fixpoint marshal (v : Value) : result JSON :=
  match v with
  | VBool b => Ok (JBool b)
  | VInt n => Ok (JNumber n)
  | VString s => Ok (JString s)
  | VSlice None | VMap None | VPtr None | VInterface None => Ok JNull
  | VSlice (Some xs) =>
      result_map JArray (sequence (map marshal xs))
  | VMap (Some kvs) =>
      result_map JObject
        (sequence_snd (sort_by_key (map (λ kv, (kv.1, marshal kv.2)) kvs)))
  | VPtr (Some v') | VInterface (Some v') => marshal v'
  | VStruct fields =>
      result_map JObject
        (sequence_snd
           (omap (λ fv : FieldTag * Value,
                    if tag_omitempty fv.1 && isEmptyValue fv.2 then None
                    else Some (tag_name fv.1, marshal fv.2))
                 fields))
  | VChan => Err (UnsupportedTypeError "chan")
  | VFunc => Err (UnsupportedTypeError "func")
  end.

(** The decimal numeral of an integer. *)
Definition decimal (n : Z) : string :=
  NilZero.string_of_int (Z.to_int n).

Definition join_comma (l : list string) : string :=
  match l with
  | [] => ""
  | x :: l' => foldl (λ acc y, acc +:+ "," +:+ y) x l'
  end.

Section render.
Context `{GoLib}.

(** The compact text of a document, as [json.Marshal] writes it. *)
Fixpoint render (j : JSON) : string :=
  match j with
  | JNull => "null"
  | JBool true => "true"
  | JBool false => "false"
  | JNumber n => decimal n
  | JString s => json_quote s
  | JArray items => "[" +:+ join_comma (map render items) +:+ "]"
  | JObject members =>
      "{" +:+
      join_comma (map (λ kv, json_quote kv.1 +:+ ":" +:+ render kv.2) members)
      +:+ "}"
  end.
End render.

(** The member of an object stored under a key, for the first such
    member. *)
Fixpoint assoc {A} (key : string) (l : list (string * A)) : option A :=
  match l with
  | [] => None
  | (k, a) :: l' => if bool_decide (k = key) then Some a else assoc key l'
  end.

Definition member (key : string) (j : JSON) : option JSON :=
  match j with
  | JObject members => assoc key members
  | _ => None
  end.

(** Decoding a document into a [map[string]interface{}]: an object
    becomes the map of its members, a later member replacing an
    earlier one with the same key; anything else is refused. *)
Definition decode_object (j : JSON) : option (gmap string JSON) :=
  match j with
  | JObject members => Some (list_to_map (reverse members))
  | _ => None
  end.

(** ** types.go: the response envelope *)

Record ErrorInfo := {
  Type_ : string;                   (* `json:"type"` *)
  Details : gmap string string;     (* `json:"details,omitempty"` *)
}.

(** [Data] is an [interface{}] and [Error] a pointer: [None] is nil.
    A nil and an empty [Details] map read the same and are both left
    out by [omitempty]; the model does not tell them apart. *)
Record Response := {
  Status : string;                  (* `json:"status"` *)
  StatusCode : Z;                   (* `json:"statusCode"` *)
  Message : string;                 (* `json:"message"` *)
  Data : option Value;              (* `json:"data,omitempty"` *)
  Error : option ErrorInfo;         (* `json:"error,omitempty"` *)
}.

Definition tag (name : string) : FieldTag :=
  {| tag_name := name; tag_omitempty := false |}.
Definition tag_omit (name : string) : FieldTag :=
  {| tag_name := name; tag_omitempty := true |}.

(** The two structs as the encoder reflects on them: fields in
    declaration order, each with its tag. *)
Definition ErrorInfo_Value (e : ErrorInfo) : Value :=
  VStruct [
    (tag "type", VString (Type_ e));
    (tag_omit "details",
       VMap (Some (map_to_list (VString <$> Details e))))
  ].

Definition Response_Value (resp : Response) : Value :=
  VStruct [
    (tag "status", VString (Status resp));
    (tag "statusCode", VInt (StatusCode resp));
    (tag "message", VString (Message resp));
    (tag_omit "data", VInterface (Data resp));
    (tag_omit "error", VPtr (ErrorInfo_Value <$> Error resp))
  ].

(** ** Effects: the response writer and the logger *)

(** The value of a [slog.Attr]: [slog.Int], [slog.String], and
    [slog.Any] of a details map or of an error. *)
Inductive AttrValue :=
  | IntValue (n : Z)
  | StringValue (s : string)
  | MapValue (m : gmap string string)
  | ErrorValue (e : GoError).

Record Attr := {
  Key : string;
  Val : AttrValue;
}.

Definition slog_Int (key : string) (n : Z) : Attr :=
  {| Key := key; Val := IntValue n |}.
Definition slog_String (key s : string) : Attr :=
  {| Key := key; Val := StringValue s |}.
Definition slog_Any_map (key : string) (m : gmap string string) : Attr :=
  {| Key := key; Val := MapValue m |}.
Definition slog_Any_error (key : string) (e : GoError) : Attr :=
  {| Key := key; Val := ErrorValue e |}.

(** One record handed to [defaultConfig.Logger]. *)
Record LogRecord := {
  log_ctx : Context;
  log_level : slog.Level;
  log_msg : string;
  log_attrs : list Attr;
}.

(** What a dispatcher does to the outside: calls on the
    [http.ResponseWriter] ([w.Header().Set], [w.WriteHeader],
    [w.Write]) and records given to the logger. *)
Inductive Event :=
  | HeaderSet (key value : string)
  | WriteHeader (statusCode : Z)
  | Write (p : string)
  | Log (r : LogRecord).

(** What a dispatcher reads from the outside: the content of the
    package-level [statusConfigMap] and the error, if any, with which
    the writer answers [Write]. *)
Record Env := {
  env_statusConfigMap : gmap Z StatusConfig;
  env_write_err : option GoError;
}.

Inductive Outcome (A : Type) :=
  | Returned (a : A)
  | Panicked (reason : string).
Arguments Returned {A} a.
Arguments Panicked {A} reason.

(** A computation: its outcome and the events it caused, oldest
    first. *)
Definition M (A : Type) : Type := Env → Outcome A * list Event.

#[global] Instance M_ret : MRet M := λ A a _, (Returned a, []).
#[global] Instance M_bind : MBind M := λ A B f c env,
  match c env with
  | (Returned a, t) => let '(o, t') := f a env in (o, t ++ t')
  | (Panicked reason, t) => (Panicked reason, t)
  end.

Definition emit (e : Event) : M unit := λ _, (Returned tt, [e]).
Definition ask : M Env := λ env, (Returned env, []).
Definition panic {A} (reason : string) : M A := λ _, (Panicked reason, []).

Definition outcome {A} (c : M A) (env : Env) : Outcome A := (c env).1.
Definition trace {A} (c : M A) (env : Env) : list Event := (c env).2.

(** [Logger.Warn] logs with the background context. *)
Definition Logger_Warn (msg : string) (attrs : list Attr) : M unit :=
  emit (Log {| log_ctx := Background; log_level := slog.LevelWarn;
               log_msg := msg; log_attrs := attrs |}).
Definition Logger_ErrorContext (ctx : Context) (msg : string)
    (attrs : list Attr) : M unit :=
  emit (Log {| log_ctx := ctx; log_level := slog.LevelError;
               log_msg := msg; log_attrs := attrs |}).
Definition Logger_LogAttrs (ctx : Context) (level : slog.Level)
    (msg : string) (attrs : list Attr) : M unit :=
  emit (Log {| log_ctx := ctx; log_level := level;
               log_msg := msg; log_attrs := attrs |}).

Definition w_Header_Set (key value : string) : M unit :=
  emit (HeaderSet key value).
Definition w_WriteHeader (statusCode : Z) : M unit :=
  emit (WriteHeader statusCode).
Definition w_Write (p : string) : M (option GoError) :=
  λ env, (Returned (env_write_err env), [Write p]).

Definition newline : string := String (ascii_of_nat 10) "".

Section dispatch.
Context `{GoLib}.

(** [json.NewEncoder(w).Encode(v)]: the value is marshalled first; on
    an error nothing is written; otherwise the text and a newline go
    to the writer in one [Write], whose error is returned. *)
Definition Encode (v : Value) : M (option GoError) :=
  match marshal v with
  | Err e => mret (Some e)
  | Ok j => w_Write (render j +:+ newline)
  end.

Definition validateStatusCode (statusCode : Z) : M Z :=
  if (statusCode <? 100) || (statusCode >? 599) then
    Logger_Warn "Invalid HTTP status code provided, using 500"
      [slog_Int "provided_code" statusCode];;
    mret http.StatusInternalServerError
  else mret statusCode.

(** [HTTPResponse].  The Go function returns nothing; the model
    returns the envelope [resp] it built, on both of its exits, so
    that statements about the envelope can name it. *)
Definition HTTPResponse (r : option Request) (statusCode : Z)
    (message : string) (data : option Value)
    (details : gmap string string) : M Response :=
  statusCode ← validateStatusCode statusCode;
  let ctx := match r with Some r => Ctx r | None => Background end in
  reqInfo ← match r with
            | Some r => mret (extractRequestInfo r)
            | None =>
                Logger_Warn "JSON response called with nil request" [];;
                mret RequestInfo_zero
            end;
  env ← ask;
  let message :=
    getMessageForStatus (env_statusConfigMap env) statusCode message in
  (* config, exists := statusConfigMap[statusCode] *)
  let config := env_statusConfigMap env !! statusCode in
  let '(status, errorInfo) :=
    if statusCode >=? 400 then
      let errorType :=
        match config with
        | Some config =>
            if bool_decide (ErrorType config ≠ "") then ErrorType config
            else "unknown_error"
        | None => "unknown_error"
        end in
      ("error", Some {| Type_ := errorType; Details := details |})
    else ("success", None) in
  w_Header_Set "Content-Type" "application/json";;
  w_Header_Set "X-Content-Type-Options" "nosniff";;
  w_Header_Set "Cache-Control" "no-cache, no-store, must-revalidate";;
  let resp := {| Status := status; StatusCode := statusCode;
                 Message := message; Data := data;
                 Error := errorInfo |} in
  (* Determine log level *)
  let logLevel :=
    match config with
    | Some config => LogLevel config
    | None =>
        if statusCode >=? 500 then slog.LevelError
        else if statusCode >=? 400 then slog.LevelWarn
        else slog.LevelInfo
    end in
  w_WriteHeader statusCode;;
  let logAttrs :=
    [ slog_Int "statusCode" statusCode;
      slog_String "status" status;
      slog_String "message" message;
      slog_String "method" (ri_Method reqInfo);
      slog_String "path" (ri_Path reqInfo);
      slog_String "user_agent" (ri_UserAgent reqInfo);
      slog_String "remote_ip" (ri_RemoteIP reqInfo) ] in
  let logAttrs :=
    match errorInfo with
    | Some errorInfo =>
        logAttrs ++ [ slog_String "error_type" (Type_ errorInfo);
                      slog_Any_map "error_details" (Details errorInfo) ]
    | None => logAttrs
    end in
  err ← Encode (Response_Value resp);
  match err with
  | Some err =>
      Logger_ErrorContext ctx "Failed to encode JSON response"
        (logAttrs ++ [slog_Any_error "encoding_error" err]);;
      mret resp
  | None =>
      let logMessage :=
        if statusCode >=? 500 then "HTTP server error response sent"
        else if statusCode >=? 400 then "HTTP client error response sent"
        else "HTTP response sent" in
      Logger_LogAttrs ctx logLevel logMessage logAttrs;;
      mret resp
  end.
End dispatch.

(** ** The older dispatcher of httpresponses.go *)

(** The name of a dynamic type in a panic message.  The model keeps
    the kind of a value, not its type: the name is exact for [bool],
    for an [int] and for the slices and maps that hold interface
    values, and stands for the kind otherwise. *)
Definition kind_name (v : Value) : string :=
  match v with
  | VBool _ => "bool"
  | VInt _ => "int"
  | VString _ => "string"
  | VSlice _ => "[]interface {}"
  | VMap _ => "map[string]interface {}"
  | VPtr _ => "ptr"
  | VInterface _ => "interface {}"
  | VStruct _ => "struct"
  | VChan => "chan"
  | VFunc => "func"
  end.

(** A type assertion [v.(string)] on a map element: it panics when the
    element is missing (a nil interface) or is not a string, with the
    text of the Go runtime, which names the dynamic type. *)
Definition assert_string (v : option Value) : M string :=
  match v with
  | Some (VString s) => mret s
  | Some v =>
      panic ("interface conversion: interface {} is " +:+ kind_name v +:+
             ", not string")
  | None => panic "interface conversion: interface {} is nil, not string"
  end.

(** Modelled from the spec: the [extractRequestInfo] that
    [JSONResponse] calls returns a [map[string]interface{}] and is not
    among the sources.  Following section 4.3 it holds the method, the
    path of the URL, the user-agent header and the resolved client IP,
    under the keys [JSONResponse] reads. *)
Definition extractRequestInfo_map `{GoLib} (r : Request) : gmap string Value :=
  {[ "method" := VString (Method r);
     "path" := VString (URL_Path r);
     "user_agent" := VString (UserAgent r);
     "remote_ip" := VString (getClientIP r) ]}.

Section legacy.
Context `{GoLib}.
(** the [extractRequestInfo] of that version of the package *)
Variable extractRequestInfo' : Request → gmap string Value.

(** [JSONResponse].  As [HTTPResponse], it returns the envelope it
    built.  Line 238 of the file logs with [config.LogLevel] where no
    [config] is in scope; it is read here as the entry of
    [statusConfigMap] for the status code, whose zero value has level
    [LevelInfo]. *)
Definition JSONResponse (r : option Request) (statusCode : Z)
    (message : string) (data : option Value)
    (details : gmap string string) : M Response :=
  statusCode ← validateStatusCode statusCode;
  let ctx := match r with Some r => Ctx r | None => Background end in
  env ← ask;
  let message :=
    getMessageForStatus (env_statusConfigMap env) statusCode message in
  reqInfo ← match r with
            | Some r => mret (extractRequestInfo' r)
            | None =>
                Logger_Warn "JSON response called with nil request" [];;
                mret ({[ "method" := VString "UNKNOWN";
                         "path" := VString "UNKNOWN";
                         "user_agent" := VString "UNKNOWN";
                         "remote_ip" := VString "UNKNOWN" ]}
                      : gmap string Value)
            end;
  let config := env_statusConfigMap env !! statusCode in
  let '(status, errorInfo) :=
    if statusCode >=? 400 then
      let errorType :=
        match config with
        | Some config =>
            if bool_decide (ErrorType config ≠ "") then ErrorType config
            else "unknown_error"
        | None => "unknown_error"
        end in
      ("error", Some {| Type_ := errorType; Details := details |})
    else ("success", None) in
  w_Header_Set "Content-Type" "application/json";;
  w_Header_Set "X-Content-Type-Options" "nosniff";;
  w_Header_Set "Cache-Control" "no-cache, no-store, must-revalidate";;
  let resp := {| Status := status; StatusCode := statusCode;
                 Message := message; Data := data;
                 Error := errorInfo |} in
  Logger_LogAttrs Background
    (match config with Some config => LogLevel config | None => 0 end)
    "HTTP response"
    [slog_Int "statusCode" statusCode; slog_String "message" message];;
  w_WriteHeader statusCode;;
  method ← assert_string (reqInfo !! "method");
  path ← assert_string (reqInfo !! "path");
  user_agent ← assert_string (reqInfo !! "user_agent");
  remote_ip ← assert_string (reqInfo !! "remote_ip");
  let logAttrs :=
    [ slog_Int "statusCode" statusCode;
      slog_String "status" status;
      slog_String "message" message;
      slog_String "method" method;
      slog_String "path" path;
      slog_String "user_agent" user_agent;
      slog_String "remote_ip" remote_ip ] in
  let logAttrs :=
    match errorInfo with
    | Some errorInfo =>
        logAttrs ++ [ slog_String "error_type" (Type_ errorInfo);
                      slog_Any_map "error_details" (Details errorInfo) ]
    | None => logAttrs
    end in
  err ← Encode (Response_Value resp);
  match err with
  | Some err =>
      Logger_ErrorContext ctx "Failed to encode JSON response"
        (logAttrs ++ [slog_Any_error "encoding_error" err]);;
      mret resp
  | None =>
      let logLevel :=
        match config with
        | Some config => LogLevel config
        | None =>
            if statusCode >=? 500 then slog.LevelError
            else if statusCode >=? 400 then slog.LevelWarn
            else slog.LevelInfo
        end in
      let logMessage :=
        if statusCode >=? 400 then
          if statusCode >=? 500 then "HTTP server error response sent"
          else "HTTP client error response sent"
        else "HTTP response sent" in
      Logger_LogAttrs ctx logLevel logMessage logAttrs;;
      mret resp
  end.
End legacy.

(** ** Observations on a trace *)

(** The status lines written, the bytes given to [Write], the headers
    set, the log records, and the calls on the writer alone. *)
Definition statusLines (t : list Event) : list Z :=
  omap (λ e, match e with WriteHeader c => Some c | _ => None end) t.

Definition body (t : list Event) : string :=
  foldr (λ e acc, match e with Write p => p +:+ acc | _ => acc end) "" t.

Definition headersSet (t : list Event) : list (string * string) :=
  omap (λ e, match e with HeaderSet k v => Some (k, v) | _ => None end) t.

Definition logged (t : list Event) : list LogRecord :=
  omap (λ e, match e with Log r => Some r | _ => None end) t.

Definition is_Log (e : Event) : bool :=
  match e with Log _ => true | _ => false end.

Definition written (t : list Event) : list Event :=
  filter (λ e, is_Log e = false) t.

(** ** An executable instance of the library for ASCII input

    [asciiLib] agrees with Go on ASCII strings without brackets:
    [TrimSpace] strips the six ASCII white-space bytes, [ParseIP]
    reads dotted-quad IPv4 addresses, [SplitHostPort] splits at the
    only colon, and the string encoder escapes quotes, backslashes,
    the control bytes and the HTML-sensitive bytes. *)

Definition is_space (c : ascii) : bool :=
  let n := nat_of_ascii c in
  (n =? 32)%nat || ((9 <=? n)%nat && (n <=? 13)%nat).

Fixpoint trim_left (s : string) : string :=
  match s with
  | String c s' => if is_space c then trim_left s' else s
  | EmptyString => EmptyString
  end.

Fixpoint trim_right (s : string) : string :=
  match s with
  | String c s' =>
      let t := trim_right s' in
      if is_space c && bool_decide (t = "") then "" else String c t
  | EmptyString => EmptyString
  end.

Definition ascii_TrimSpace (s : string) : string :=
  trim_right (trim_left s).

(** One field of a dotted quad: digits only, no leading zero, at most
    255. *)
Definition octet (s : string) : option Z :=
  let cs := list_ascii_of_string s in
  match cs with
  | [] => None
  | c :: rest =>
      if negb (forallb is_digit cs) then None
      else if Ascii.eqb c "0" && negb (bool_decide (rest = [])) then None
      else
        let v := foldl (λ acc d, 10 * acc + (Z.of_nat (nat_of_ascii d) - 48)) 0 cs in
        if (length cs <=? 3)%nat && (v <=? 255) then Some v else None
  end.

Definition ipv4_ParseIP (s : string) : option (list Z) :=
  match strings_Split s "." with
  | [a; b; c; d] =>
      a ← octet a; b ← octet b; c ← octet c; d ← octet d;
      Some [a; b; c; d]
  | _ => None
  end.

Definition has_byte (c : ascii) (s : string) : bool :=
  existsb (Ascii.eqb c) (list_ascii_of_string s).

Definition simple_SplitHostPort (hostport : string) : result (string * string) :=
  if has_byte "[" hostport then Err (AddrError "unexpected '[' in address" hostport)
  else if has_byte "]" hostport then Err (AddrError "unexpected ']' in address" hostport)
  else match strings_Split hostport ":" with
       | [host; port] => Ok (host, port)
       | [_] => Err (AddrError "missing port in address" hostport)
       | _ => Err (AddrError "too many colons in address" hostport)
       end.

Definition dquote : ascii := ascii_of_nat 34.

Definition hex_digit (n : nat) : ascii :=
  if (n <? 10)%nat then ascii_of_nat (48 + n) else ascii_of_nat (87 + n).

Fixpoint escape (s : string) : string :=
  match s with
  | EmptyString => EmptyString
  | String c s' =>
      let n := nat_of_ascii c in
      (if (n =? 34)%nat then String "\" (String dquote "")
       else if (n =? 92)%nat then "\\"
       else if (n =? 8)%nat then "\b"
       else if (n =? 12)%nat then "\f"
       else if (n =? 10)%nat then "\n"
       else if (n =? 13)%nat then "\r"
       else if (n =? 9)%nat then "\t"
       else if (n <? 32)%nat then
         "\u00" +:+ String (hex_digit (n / 16)) (String (hex_digit (n mod 16)) "")
       else if (n =? 60)%nat then "\u003c"
       else if (n =? 62)%nat then "\u003e"
       else if (n =? 38)%nat then "\u0026"
       else String c "") +:+ escape s'
  end.

Definition ascii_quote (s : string) : string :=
  String dquote (escape s) +:+ String dquote "".

#[global] Instance asciiLib : GoLib := {|
  IP := list Z;
  strings_TrimSpace := ascii_TrimSpace;
  net_ParseIP := ipv4_ParseIP;
  net_SplitHostPort := simple_SplitHostPort;
  json_quote := ascii_quote;
|}.

(** The environment of a freshly started process whose writer accepts
    every [Write]. *)
Definition defaultEnv : Env :=
  {| env_statusConfigMap := statusConfigMap; env_write_err := None |}.

Definition req_test : Request :=
  {| Method := "GET"; URL_Path := "/test";
     Header := {[ "X-Forwarded-For" := ["not-an-ip, 9.9.9.9"];
                  "User-Agent" := ["TestAgent"] ]};
     RemoteAddr := "6.6.6.6:1234"; Ctx := RequestContext 1 |}.


(** ** A closed form of one run of [HTTPResponse]

    The definitions of this section only name the pieces of a run, so
    that [HTTPResponse_run] can state what the function does in one
    equation; the properties below are derived from that equation. *)

Definition invalidCode (c : Z) : bool := (c <? 100) || (c >? 599).

Definition effectiveCode (c : Z) : Z :=
  if invalidCode c then 500 else c.

Definition invalidCodeWarning (c : Z) : LogRecord :=
  {| log_ctx := Background; log_level := slog.LevelWarn;
     log_msg := "Invalid HTTP status code provided, using 500";
     log_attrs := [slog_Int "provided_code" c] |}.

Definition nilRequestWarning : LogRecord :=
  {| log_ctx := Background; log_level := slog.LevelWarn;
     log_msg := "JSON response called with nil request";
     log_attrs := [] |}.

Definition securityHeaders : list Event :=
  [ HeaderSet "Content-Type" "application/json";
    HeaderSet "X-Content-Type-Options" "nosniff";
    HeaderSet "Cache-Control" "no-cache, no-store, must-revalidate" ].

Definition ctxOf (r : option Request) : Context :=
  match r with Some r => Ctx r | None => Background end.

Definition errorTypeFor (m : gmap Z StatusConfig) (c : Z) : string :=
  match m !! c with
  | Some config =>
      if bool_decide (ErrorType config ≠ "") then ErrorType config
      else "unknown_error"
  | None => "unknown_error"
  end.

Definition envelopeOf (m : gmap Z StatusConfig) (c : Z) (msg : string)
    (data : option Value) (details : gmap string string) : Response :=
  {| Status := if c >=? 400 then "error" else "success";
     StatusCode := c;
     Message := getMessageForStatus m c msg;
     Data := data;
     Error := if c >=? 400
              then Some {| Type_ := errorTypeFor m c; Details := details |}
              else None |}.

(** The attributes accumulated for the log records of one call
    (section 4.4, step 10): status code, status, message, method, path,
    user agent, remote IP and, for an error, its type and details. *)
Definition accumulatedAttrs (resp : Response) (ri : RequestInfo) : list Attr :=
  [ slog_Int "statusCode" (StatusCode resp);
    slog_String "status" (Status resp);
    slog_String "message" (Message resp);
    slog_String "method" (ri_Method ri);
    slog_String "path" (ri_Path ri);
    slog_String "user_agent" (ri_UserAgent ri);
    slog_String "remote_ip" (ri_RemoteIP ri) ] ++
  match Error resp with
  | Some errorInfo =>
      [ slog_String "error_type" (Type_ errorInfo);
        slog_Any_map "error_details" (Details errorInfo) ]
  | None => []
  end.

Definition encodeFailureRecord (ctx : Context) (attrs : list Attr)
    (e : GoError) : LogRecord :=
  {| log_ctx := ctx; log_level := slog.LevelError;
     log_msg := "Failed to encode JSON response";
     log_attrs := attrs ++ [slog_Any_error "encoding_error" e] |}.

Definition responseLevel (m : gmap Z StatusConfig) (c : Z) : slog.Level :=
  match m !! c with
  | Some config => LogLevel config
  | None =>
      if c >=? 500 then slog.LevelError
      else if c >=? 400 then slog.LevelWarn
      else slog.LevelInfo
  end.

Definition responseLogMessage (c : Z) : string :=
  if c >=? 500 then "HTTP server error response sent"
  else if c >=? 400 then "HTTP client error response sent"
  else "HTTP response sent".

Definition responseRecord (m : gmap Z StatusConfig) (ctx : Context)
    (c : Z) (attrs : list Attr) : LogRecord :=
  {| log_ctx := ctx; log_level := responseLevel m c;
     log_msg := responseLogMessage c; log_attrs := attrs |}.

Section closed_form.
Context `{GoLib}.

Definition snapshotOf (r : option Request) : RequestInfo :=
  match r with
  | Some r => extractRequestInfo r
  | None => RequestInfo_zero
  end.

(** The events before the first header is set. *)
Definition prologue (c : Z) (r : option Request) : list Event :=
  (if invalidCode c then [Log (invalidCodeWarning c)] else []) ++
  (if r is None then [Log nilRequestWarning] else []).

(** The events after the status line. *)
Definition epilogue (env : Env) (ctx : Context) (resp : Response)
    (attrs : list Attr) : list Event :=
  match marshal (Response_Value resp) with
  | Err e => [Log (encodeFailureRecord ctx attrs e)]
  | Ok j =>
      Write (render j +:+ newline) ::
      match env_write_err env with
      | Some e => [Log (encodeFailureRecord ctx attrs e)]
      | None =>
          [Log (responseRecord (env_statusConfigMap env) ctx
                  (StatusCode resp) attrs)]
      end
  end.
End closed_form.

(** ** Definitions that follow the words of the specification *)

(** [resolve_message] of section 4.1: the provided message if it is
    not empty; else the default message of a registered code; else a
    fallback chosen by the hundreds digit of the code, with every code
    from 500 on counted as a server error. *)
Definition resolve_message (m : gmap Z StatusConfig) (status_code : Z)
    (provided_message : string) : string :=
  if bool_decide (provided_message = "") then
    match m !! status_code with
    | Some profile => DefaultMessage profile
    | None =>
        if status_code / 100 =? 2 then "Request completed successfully"
        else if status_code / 100 =? 3 then "Request requires further action"
        else if status_code / 100 =? 4 then "Client error occurred"
        else if 500 <=? status_code then "Server error occurred"
        else "Response completed"
    end
  else provided_message.

Section resolver_spec.
Context `{GoLib}.

Definition parses_as_IP (s : string) : Prop := is_Some (net_ParseIP s).

#[global] Instance parses_as_IP_dec (s : string) : Decision (parses_as_IP s) :=
  is_Some_dec (net_ParseIP s).

(** [resolve] of section 4.2: the first valid token of the
    comma-separated [X-Forwarded-For] value, else the trimmed
    [X-Real-IP] value if valid, else the host of a [host:port]
    remote address if valid, else the remote address as it is. *)
Definition resolve (headers : gmap string (list string))
    (connection_remote_address : string) : string :=
  let tokens :=
    strings_TrimSpace <$>
      strings_Split (Header_Get headers "X-Forwarded-For") "," in
  match list_find parses_as_IP tokens with
  | Some (_, token) => token
  | None =>
      let real := strings_TrimSpace (Header_Get headers "X-Real-IP") in
      if decide (parses_as_IP real) then real
      else match net_SplitHostPort connection_remote_address with
           | Ok (host, _) =>
               if decide (parses_as_IP host) then host
               else connection_remote_address
           | Err _ => connection_remote_address
           end
  end.

End resolver_spec.

(** The placeholder snapshot of section 4.4, step 2. *)
Definition RequestInfo_unknown : RequestInfo :=
  {| ri_Method := "UNKNOWN"; ri_Path := "UNKNOWN";
     ri_UserAgent := "UNKNOWN"; ri_RemoteIP := "UNKNOWN" |}.

(** An extractor of the older package is well typed when it stores a
    string under each of the four keys [JSONResponse] reads. *)
Definition stores_strings (f : Request → gmap string Value) : Prop :=
  ∀ r, ∀ key, key ∈ ["method"; "path"; "user_agent"; "remote_ip"] →
    ∃ s, f r !! key = Some (VString s).

(** A request with the given headers and remote address. *)
Definition req_with (headers : gmap string (list string)) (remote : string)
    : Request :=
  {| Method := "GET"; URL_Path := "/"; Header := headers;
     RemoteAddr := remote; Ctx := Background |}.

(** The three texts of the final log record of a response. *)
Definition responseLogMessages : list string :=
  [ "HTTP response sent";
    "HTTP client error response sent";
    "HTTP server error response sent" ].

(** The placeholder map of [JSONResponse]. *)
Definition unknownRequestInfo : gmap string Value :=
  {[ "method" := VString "UNKNOWN";
     "path" := VString "UNKNOWN";
     "user_agent" := VString "UNKNOWN";
     "remote_ip" := VString "UNKNOWN" ]}.

Definition reqInfoOf (extract : Request → gmap string Value)
    (r : option Request) : gmap string Value :=
  match r with
  | Some r => extract r
  | None => unknownRequestInfo
  end.

(** The record line 238 of httpresponses.go logs before the status
    line. *)
Definition earlyRecord (m : gmap Z StatusConfig) (c : Z) (msg : string)
    : LogRecord :=
  {| log_ctx := Background;
     log_level := match m !! c with Some config => LogLevel config | None => 0 end;
     log_msg := "HTTP response";
     log_attrs := [ slog_Int "statusCode" c;
                    slog_String "message" (getMessageForStatus m c msg) ] |}.

(** ** config.go and the extension of the registry *)

(** [Config]: [None] is the nil logger.  The package starts with
    [Config{Logger: slog.Default()}]. *)
Record Config (Logger : Type) := {
  cfg_Logger : option Logger;
}.
Arguments cfg_Logger {Logger} c.

(** [SetConfig], as a step on the package-level [defaultConfig]: only
    a non-nil logger overwrites the one in place. *)
Definition SetConfig {Logger : Type} (cfg : Config Logger)
    (defaultConfig : Config Logger) : Config Logger :=
  if cfg_Logger cfg is Some logger
  then {| cfg_Logger := Some logger |}
  else defaultConfig.

(** [AddStatusConfig] of httpresponses.go.  It assigns to the
    package-level map, so it is a step on the environment: the new
    environment and the events of the call.  Both branches store the
    configuration; the second one warns first. *)
Definition AddStatusConfig (statusCode : Z) (config : StatusConfig)
    (env : Env) : Env * list Event :=
  match env_statusConfigMap env !! statusCode with
  | None =>
      ({| env_statusConfigMap := <[statusCode := config]> (env_statusConfigMap env);
          env_write_err := env_write_err env |},
       [])
  | Some _ =>
      ({| env_statusConfigMap := <[statusCode := config]> (env_statusConfigMap env);
          env_write_err := env_write_err env |},
       [Log {| log_ctx := Background; log_level := slog.LevelWarn;
               log_msg := "Status code already exists, updating configuration";
               log_attrs := [slog_Int "statusCode" statusCode] |}])
  end.

(** A request whose [X-Forwarded-For] header is replaced by the given
    header lines. *)
Definition with_forwarded (r : Request) (lines : list string) : Request :=
  {| Method := Method r; URL_Path := URL_Path r;
     Header := <["X-Forwarded-For" := lines]> (Header r);
     RemoteAddr := RemoteAddr r; Ctx := Ctx r |}.

(** What the shipped registry keeps for each of its entries. *)
Definition well_formed_entry (c : Z) (config : StatusConfig) : Prop :=
  200 ≤ c ≤ 506 ∧
  DefaultMessage config ≠ "" ∧
  (ErrorType config = "" ↔ c < 400) ∧
  ErrorType config ≠ "unknown_error" ∧
  (c < 400 → LogLevel config = slog.LevelInfo) ∧
  (500 ≤ c → LogLevel config = slog.LevelError) ∧
  LogLevel config ∈ [slog.LevelInfo; slog.LevelWarn; slog.LevelError].

#[global] Instance well_formed_entry_dec (c : Z) (config : StatusConfig) :
  Decision (well_formed_entry c config) :=
  ltac:(unfold well_formed_entry; apply _).

(** An entry whose value was marshalled without error. *)
Definition entry_ok {A} (kv : string * result A) : Prop := ∃ a, kv.2 = Ok a.

(** * Properties *)

(** ** The status registry *)

Lemma geb_spec (a b : Z) : (a >=? b) = bool_decide (b ≤ a).
Proof. rewrite Z.geb_leb. case_bool_decide; lia. Qed.

Lemma hundreds_digit (c k : Z) : c / 100 = k ↔ 100 * k ≤ c < 100 * k + 100.
Proof.
  split.
  - intros <-.
    pose proof (Z.div_mod c 100 ltac:(lia)).
    pose proof (Z.mod_pos_bound c 100 ltac:(lia)). lia.
  - intros Hc. symmetry. apply (Z.div_unique c 100 k (c - 100 * k)); lia.
Qed.

Lemma hundreds_digit_eqb (c k : Z) :
  (c / 100 =? k) = bool_decide (100 * k ≤ c) && (c <? 100 * k + 100).
Proof.
  destruct (c / 100 =? k) eqn:E.
  - apply Z.eqb_eq, hundreds_digit in E.
    rewrite bool_decide_true by lia.
    symmetry. apply Z.ltb_lt. lia.
  - apply Z.eqb_neq in E. rewrite hundreds_digit in E.
    case_bool_decide; simpl; [|done].
    symmetry. apply Z.ltb_ge. lia.
Qed.

(** C4: message resolution returns the provided message verbatim when
    it is not empty; the registered default message when it is empty
    and the code is registered; and otherwise the fallback of the
    code's hundreds-digit class: [resolve_message], which follows the
    words of the specification, and [getMessageForStatus] agree on
    every map, code and message. *)
Theorem getMessageForStatus_resolve_message
    (m : gmap Z StatusConfig) (statusCode : Z) (providedMessage : string) :
  getMessageForStatus m statusCode providedMessage =
  resolve_message m statusCode providedMessage.
Proof.
  unfold getMessageForStatus, resolve_message.
  repeat case_bool_decide; try congruence.
  destruct (m !! statusCode); [done|].
  rewrite !geb_spec, !hundreds_digit_eqb.
  replace (500 <=? statusCode) with (bool_decide (500 ≤ statusCode))
    by (case_bool_decide; symmetry; [apply Z.leb_le|apply Z.leb_gt]; lia).
  reflexivity.
Qed.

(** ** The client-IP resolver *)

Section resolver.
Context `{GoLib}.

(** The loop of [getClientIP] finds the first trimmed token that
    parses. *)
Lemma firstValidIP_list_find (ips : list string) :
  firstValidIP ips =
  snd <$> list_find parses_as_IP (strings_TrimSpace <$> ips).
Proof.
  induction ips as [|ip ips IH]; [done|].
  cbn [firstValidIP fmap list_fmap list_find].
  case_decide as Hip; unfold parses_as_IP in Hip.
  - destruct Hip as [a ->]. done.
  - apply eq_None_not_Some in Hip. rewrite Hip, IH.
    by destruct (list_find _ _) as [[??]|].
Qed.

Lemma firstValidIP_empty_token :
  net_ParseIP (strings_TrimSpace "") = None →
  firstValidIP (strings_Split "" ",") = None.
Proof. intros Hempty. cbn. by rewrite Hempty. Qed.
End resolver.

(** C3: the client-IP resolver follows the precedence of section 4.2:
    the first comma-separated, trimmed token of [X-Forwarded-For] that
    parses as an IP literal (malformed tokens are skipped), else the
    trimmed [X-Real-IP] value if it parses, else the host of a
    [host:port] remote address if it parses, else the remote address
    unchanged.  [getClientIP] is a total function to strings: it has a
    result for every request.  The library's [ParseIP] rejects the
    trimmed empty string, which is all that is asked of it. *)
Theorem getClientIP_resolve `{GoLib} (r : Request) :
  net_ParseIP (strings_TrimSpace "") = None →
  getClientIP r = resolve (Header r) (RemoteAddr r).
Proof.
  intros Hempty. unfold getClientIP, resolve.
  assert (Hforwarded :
    (if bool_decide (Header_Get (Header r) "X-Forwarded-For" ≠ "")
     then firstValidIP (strings_Split (Header_Get (Header r) "X-Forwarded-For") ",")
     else None) =
    snd <$> list_find parses_as_IP
      (strings_TrimSpace <$>
         strings_Split (Header_Get (Header r) "X-Forwarded-For") ",")).
  { rewrite <- firstValidIP_list_find. case_bool_decide as Hne; [done|].
    rewrite Hne.
    by rewrite firstValidIP_empty_token. }
  rewrite Hforwarded. clear Hforwarded.
  destruct (list_find _ _) as [[i token]|]; [done|]. cbn [fmap option_fmap option_map].
  assert (Hreal :
    (if bool_decide (Header_Get (Header r) "X-Real-IP" ≠ "")
     then if net_ParseIP (strings_TrimSpace (Header_Get (Header r) "X-Real-IP")) is Some _
          then Some (strings_TrimSpace (Header_Get (Header r) "X-Real-IP"))
          else None
     else None) =
    (if decide (parses_as_IP (strings_TrimSpace (Header_Get (Header r) "X-Real-IP")))
     then Some (strings_TrimSpace (Header_Get (Header r) "X-Real-IP"))
     else None)).
  { case_bool_decide as Hne.
    - case_decide as Hp; unfold parses_as_IP in Hp.
      + by destruct Hp as [a ->].
      + apply eq_None_not_Some in Hp. by rewrite Hp.
    - rewrite Hne.
      rewrite decide_False; [done|].
      unfold parses_as_IP. rewrite Hempty. by intros [??]. }
  rewrite Hreal. clear Hreal.
  case_decide; [done|].
  destruct (net_SplitHostPort _) as [[host port]|e]; [|done].
  case_decide as Hp; unfold parses_as_IP in Hp.
  - by destruct Hp as [a ->].
  - apply eq_None_not_Some in Hp. by rewrite Hp.
Qed.

(** The request of the last resolver scenario of section 8, behind a
    connection from 6.6.6.6. *)
Lemma getClientIP_resolve_witness :
  net_ParseIP (strings_TrimSpace "") = None ∧
  getClientIP req_test = resolve (Header req_test) (RemoteAddr req_test).
Proof.
  split; [reflexivity|].
  apply (getClientIP_resolve req_test). reflexivity.
Defined.

Example getClientIP_skips_invalid_token : getClientIP req_test = "9.9.9.9".
Proof. vm_compute. reflexivity. Qed.

Example getClientIP_XForwardedFor :
  getClientIP (req_with {[ "X-Forwarded-For" := ["8.8.8.8, 9.9.9.9"] ]}
                 "192.0.2.1:1234") = "8.8.8.8".
Proof. vm_compute. reflexivity. Qed.

Example getClientIP_XRealIP :
  getClientIP (req_with {[ "X-Real-Ip" := ["7.7.7.7"] ]} "192.0.2.1:1234")
  = "7.7.7.7".
Proof. vm_compute. reflexivity. Qed.

Example getClientIP_RemoteAddr :
  getClientIP (req_with ∅ "6.6.6.6:1234") = "6.6.6.6".
Proof. vm_compute. reflexivity. Qed.

Example getClientIP_raw_RemoteAddr :
  getClientIP (req_with {[ "X-Forwarded-For" := ["unknown"] ]} "pipe")
  = "pipe".
Proof. vm_compute. reflexivity. Qed.

(** ** The dispatcher *)

Lemma append_nil_r (s : string) : s +:+ "" = s.
Proof.
  induction s as [|a s IH]; [done|].
  change (String a (s +:+ "") = String a s). by rewrite IH.
Qed.

Lemma append_assoc (s1 s2 s3 : string) :
  (s1 +:+ s2) +:+ s3 = s1 +:+ (s2 +:+ s3).
Proof.
  induction s1 as [|a s1 IH]; [done|].
  change (String a ((s1 +:+ s2) +:+ s3) = String a (s1 +:+ (s2 +:+ s3))).
  by rewrite IH.
Qed.


Section dispatcher.
Context `{GoLib}.

(** One run of [HTTPResponse], in closed form. *)
Lemma HTTPResponse_run env r c msg data details :
  let resp := envelopeOf (env_statusConfigMap env) (effectiveCode c)
                msg data details in
  HTTPResponse r c msg data details env =
    (Returned resp,
     prologue c r ++ securityHeaders ++ [WriteHeader (effectiveCode c)] ++
     epilogue env (ctxOf r) resp (accumulatedAttrs resp (snapshotOf r))).
Proof.
  unfold HTTPResponse, validateStatusCode, prologue, epilogue, effectiveCode,
    envelopeOf, accumulatedAttrs, Encode, responseRecord, encodeFailureRecord,
    errorTypeFor, responseLevel, responseLogMessage, snapshotOf, ctxOf,
    http.StatusInternalServerError, invalidCode.
  destruct ((c <? 100) || (c >? 599)), r as [r|];
    unfold mbind, M_bind, mret, M_ret, ask, Logger_Warn, Logger_ErrorContext,
      Logger_LogAttrs, w_Header_Set, w_WriteHeader, w_Write, emit;
    cbn -[marshal render getMessageForStatus Response_Value];
    try destruct (c >=? 400);
    cbn -[marshal render getMessageForStatus Response_Value];
    match goal with |- context [marshal ?v] => destruct (marshal v) end;
    try destruct (env_write_err env);
    reflexivity.
Qed.

Lemma HTTPResponse_outcome env r c msg data details :
  outcome (HTTPResponse r c msg data details) env =
  Returned (envelopeOf (env_statusConfigMap env) (effectiveCode c)
              msg data details).
Proof. unfold outcome. by rewrite HTTPResponse_run. Qed.

Lemma HTTPResponse_trace env r c msg data details :
  let resp := envelopeOf (env_statusConfigMap env) (effectiveCode c)
                msg data details in
  trace (HTTPResponse r c msg data details) env =
  prologue c r ++ securityHeaders ++ [WriteHeader (effectiveCode c)] ++
  epilogue env (ctxOf r) resp (accumulatedAttrs resp (snapshotOf r)).
Proof. unfold trace. by rewrite HTTPResponse_run. Qed.

(** The prologue only logs; the epilogue writes no status line. *)
Lemma prologue_written c r : written (prologue c r) = [].
Proof. unfold prologue. by destruct (invalidCode c), r. Qed.

Lemma prologue_statusLines c r : statusLines (prologue c r) = [].
Proof. unfold prologue. by destruct (invalidCode c), r. Qed.

Lemma prologue_body c r : body (prologue c r) = "".
Proof. unfold prologue. by destruct (invalidCode c), r. Qed.

Lemma prologue_headersSet c r : headersSet (prologue c r) = [].
Proof. unfold prologue. by destruct (invalidCode c), r. Qed.

Lemma epilogue_statusLines env ctx resp attrs :
  statusLines (epilogue env ctx resp attrs) = [].
Proof.
  unfold epilogue.
  by destruct (marshal _), (env_write_err env).
Qed.

Lemma epilogue_headersSet env ctx resp attrs :
  headersSet (epilogue env ctx resp attrs) = [].
Proof.
  unfold epilogue.
  by destruct (marshal _), (env_write_err env).
Qed.

Lemma epilogue_written env ctx ctx' resp attrs attrs' :
  written (epilogue env ctx resp attrs) =
  written (epilogue env ctx' resp attrs').
Proof.
  unfold epilogue.
  by destruct (marshal _), (env_write_err env).
Qed.

Lemma epilogue_body env ctx resp attrs :
  body (epilogue env ctx resp attrs) =
  match marshal (Response_Value resp) with
  | Ok j => render j +:+ newline
  | Err _ => ""
  end.
Proof.
  unfold epilogue.
  destruct (marshal _); [|done].
  destruct (env_write_err env); cbn; by rewrite append_nil_r.
Qed.

Lemma statusLines_app t1 t2 :
  statusLines (t1 ++ t2) = statusLines t1 ++ statusLines t2.
Proof. apply omap_app. Qed.

Lemma headersSet_app t1 t2 :
  headersSet (t1 ++ t2) = headersSet t1 ++ headersSet t2.
Proof. apply omap_app. Qed.

Lemma logged_app t1 t2 : logged (t1 ++ t2) = logged t1 ++ logged t2.
Proof. apply omap_app. Qed.

Lemma written_app t1 t2 : written (t1 ++ t2) = written t1 ++ written t2.
Proof. apply filter_app. Qed.

Lemma body_app t1 t2 : body (t1 ++ t2) = body t1 +:+ body t2.
Proof.
  induction t1 as [|e t1 IH]; [done|].
  change (body ((e :: t1) ++ t2)) with
    (match e with Write p => p +:+ body (t1 ++ t2) | _ => body (t1 ++ t2) end).
  change (body (e :: t1)) with
    (match e with Write p => p +:+ body t1 | _ => body t1 end).
  rewrite IH. destruct e; try done.
  by rewrite append_assoc.
Qed.

Lemma HTTPResponse_statusLines env r c msg data details :
  statusLines (trace (HTTPResponse r c msg data details) env) =
  [effectiveCode c].
Proof.
  rewrite HTTPResponse_trace. cbv zeta.
  rewrite !statusLines_app, prologue_statusLines, epilogue_statusLines.
  reflexivity.
Qed.

Lemma HTTPResponse_body env r c msg data details :
  body (trace (HTTPResponse r c msg data details) env) =
  match marshal (Response_Value
                   (envelopeOf (env_statusConfigMap env) (effectiveCode c)
                      msg data details)) with
  | Ok j => render j +:+ newline
  | Err _ => ""
  end.
Proof.
  rewrite HTTPResponse_trace. cbv zeta.
  rewrite !body_app, prologue_body, epilogue_body.
  reflexivity.
Qed.
End dispatcher.

(** ** The envelope on the wire *)



(** C9: an envelope whose [Data] and [Error] are both nil is
    serialized as an object with the three members [status],
    [statusCode] and [message] and nothing else: it has no [data] and
    no [error] member at all, so reading the document back finds
    neither key. *)
Theorem marshal_omits_nil_data_and_error
    (status : string) (statusCode : Z) (message : string) :
  let resp := {| Status := status; StatusCode := statusCode;
                 Message := message; Data := None; Error := None |} in
  ∃ j obj, marshal (Response_Value resp) = Ok j ∧
       j = JObject [ ("status", JString status);
                     ("statusCode", JNumber statusCode);
                     ("message", JString message) ] ∧
       member "data" j = None ∧ member "error" j = None ∧
       decode_object j = Some obj ∧
       obj !! "data" = None ∧ obj !! "error" = None ∧
       obj !! "status" = Some (JString status) ∧
       obj !! "statusCode" = Some (JNumber statusCode) ∧
       obj !! "message" = Some (JString message).
Proof. do 2 eexists. repeat split; reflexivity. Qed.

(** A typed nil pointer stored in [Data] is not a nil interface: its
    member is written, with the value null. *)
Example marshal_typed_nil_data :
  member "data" <$>
    (match marshal (Response_Value
                      {| Status := "success"; StatusCode := 200;
                         Message := "ok"; Data := Some (VPtr None);
                         Error := None |}) with
     | Ok j => Some j
     | Err _ => None
     end) = Some (Some JNull).
Proof. reflexivity. Qed.

(** The text of such an envelope. *)
Lemma render_nil_data_and_error `{GoLib}
    (status : string) (statusCode : Z) (message : string) :
  render (JObject [ ("status", JString status);
                    ("statusCode", JNumber statusCode);
                    ("message", JString message) ]) =
  "{" +:+ ((json_quote "status" +:+ ":" +:+ json_quote status) +:+ "," +:+
           (json_quote "statusCode" +:+ ":" +:+ decimal statusCode) +:+ "," +:+
           (json_quote "message" +:+ ":" +:+ json_quote message))
      +:+ "}".
Proof.
  cbn -[String.append]. unfold join_comma. cbn -[String.append].
  by rewrite !append_assoc.
Qed.


(** ** Validation of the status code *)

Lemma invalidCode_spec (c : Z) : invalidCode c = bool_decide (c < 100 ∨ 599 < c).
Proof.
  unfold invalidCode. rewrite Z.gtb_ltb.
  destruct (c <? 100) eqn:E1, (599 <? c) eqn:E2; simpl;
    symmetry; rewrite ?bool_decide_eq_true, ?bool_decide_eq_false; lia.
Qed.

Lemma effectiveCode_valid (c : Z) : 100 ≤ c ≤ 599 → effectiveCode c = c.
Proof.
  intros Hc. unfold effectiveCode.
  rewrite invalidCode_spec, bool_decide_false; [done|lia].
Qed.

Lemma effectiveCode_invalid (c : Z) : c < 100 ∨ 599 < c → effectiveCode c = 500.
Proof.
  intros Hc. unfold effectiveCode.
  by rewrite invalidCode_spec, bool_decide_true.
Qed.

Lemma effectiveCode_range (c : Z) : 100 ≤ effectiveCode c ≤ 599.
Proof.
  unfold effectiveCode. rewrite invalidCode_spec.
  case_bool_decide; lia.
Qed.

(** ** Properties of the dispatcher *)





(** C5: a status code outside [100,599] is replaced by 500 and a
    warning naming the provided code is logged; [HTTPResponse] then
    writes the status line 500, after the three headers, and returns
    normally with an envelope whose status code is 500: the correction
    is silent and a response is produced. *)
Theorem invalid_status_code_becomes_500 `{GoLib}
    (env : Env) (r : option Request) (c : Z) (msg : string)
    (data : option Value) (details : gmap string string) :
  c < 100 ∨ 599 < c →
  let warning :=
    {| log_ctx := Background; log_level := slog.LevelWarn;
       log_msg := "Invalid HTTP status code provided, using 500";
       log_attrs := [slog_Int "provided_code" c] |} in
  validateStatusCode c env = (Returned 500, [Log warning]) ∧
  let t := trace (HTTPResponse r c msg data details) env in
  statusLines t = [500] ∧
  head (logged t) = Some warning ∧
  headersSet t = [ ("Content-Type", "application/json");
                   ("X-Content-Type-Options", "nosniff");
                   ("Cache-Control", "no-cache, no-store, must-revalidate") ] ∧
  ∃ resp, outcome (HTTPResponse r c msg data details) env = Returned resp ∧
          StatusCode resp = 500 ∧ Status resp = "error".
Proof.
  intros Hc warning.
  assert (Hinv : invalidCode c = true)
    by by rewrite invalidCode_spec, bool_decide_true.
  split.
  { unfold validateStatusCode. unfold invalidCode in Hinv. by rewrite Hinv. }
  intros t. subst t.
  rewrite HTTPResponse_statusLines, HTTPResponse_outcome, HTTPResponse_trace.
  rewrite (effectiveCode_invalid c Hc). cbv zeta.
  split; [done|]. split.
  { unfold prologue. rewrite Hinv. reflexivity. }
  split.
  { rewrite !headersSet_app, prologue_headersSet, epilogue_headersSet.
    reflexivity. }
  eexists. split; [done|]. split; reflexivity.
Qed.

Lemma invalid_status_code_becomes_500_witness :
  (7 < 100 ∨ 599 < 7) ∧
  statusLines (trace (HTTPResponse None 7 "" None ∅) defaultEnv) = [500].
Proof.
  split; [lia|].
  apply (invalid_status_code_becomes_500 defaultEnv None 7 "" None ∅).
  lia.
Defined.

(** C7: every call builds an envelope whose status code is the
    validated code, and that envelope is what the body is serialized
    from.  When the validated code is at least 400 the envelope carries
    an error detail, with the details given, whose type is the
    registered error type of the code if the code is registered with a
    non-empty type, and "unknown_error" otherwise; below 400 it
    carries none.  The type of an error detail in an envelope is never
    the empty string. *)
Theorem error_detail_type `{GoLib}
    (env : Env) (r : option Request) (c : Z) (msg : string)
    (data : option Value) (details : gmap string string) :
  let code := if bool_decide (100 ≤ c ≤ 599) then c else 500 in
  let t := trace (HTTPResponse r c msg data details) env in
  ∃ resp, outcome (HTTPResponse r c msg data details) env = Returned resp ∧
    StatusCode resp = code ∧
    (∀ j, marshal (Response_Value resp) = Ok j →
       body t = render j +:+ newline) ∧
    (400 ≤ code →
       ∃ errorInfo, Error resp = Some errorInfo ∧
         Details errorInfo = details ∧
         (∀ config, env_statusConfigMap env !! code = Some config →
            ErrorType config ≠ "" → Type_ errorInfo = ErrorType config) ∧
         (∀ config, env_statusConfigMap env !! code = Some config →
            ErrorType config = "" → Type_ errorInfo = "unknown_error") ∧
         (env_statusConfigMap env !! code = None →
            Type_ errorInfo = "unknown_error")) ∧
    (code < 400 → Error resp = None) ∧
    (∀ errorInfo, Error resp = Some errorInfo → Type_ errorInfo ≠ "").
Proof.
  intros code t. subst t.
  rewrite HTTPResponse_outcome, HTTPResponse_body.
  assert (Hcode : effectiveCode c = code).
  { subst code. unfold effectiveCode. rewrite invalidCode_spec.
    repeat case_bool_decide; try done; lia. }
  rewrite Hcode. clear Hcode. generalize code. clear code. intros code.
  eexists. split; [done|]. split; [done|]. split.
  { intros j Hj. by rewrite Hj. }
  unfold envelopeOf. cbn [Error]. rewrite geb_spec. unfold errorTypeFor.
  split; [|split].
  - intros Hge. rewrite bool_decide_true by done.
    eexists. split; [done|]. cbn. split; [done|].
    repeat split.
    + intros config -> Hne. by rewrite bool_decide_true.
    + intros config -> Hne. by rewrite bool_decide_false by naive_solver.
    + by intros ->.
  - intros Hlt. by rewrite bool_decide_false by lia.
  - intros errorInfo. case_bool_decide; [|done].
    intros [= <-]. cbn.
    destruct (_ !! _) as [config|]; [|done].
    by case_bool_decide.
Qed.

Lemma prologue_logged_warnings `{GoLib} (c : Z) (r : option Request)
    (rec : LogRecord) :
  rec ∈ logged (prologue c r) →
  log_level rec = slog.LevelWarn ∧ log_msg rec ∉ responseLogMessages.
Proof.
  unfold prologue, responseLogMessages.
  destruct (invalidCode c), r; cbn;
    rewrite ?elem_of_cons, ?elem_of_nil;
    intros Hrec; repeat destruct Hrec as [->|Hrec]; try done;
    (split; [done|]); cbn; intros [?|[?|[?|[]]]]; discriminate.
Qed.

(** The same holds when the writer refuses the body: the [Write] has
    been attempted, nothing follows it but the error record. *)
Lemma write_failure_is_logged_and_contained `{GoLib}
    (env : Env) (r : option Request) (c : Z) (msg : string)
    (data : option Value) (details : gmap string string)
    (j : JSON) (e : GoError) :
  let resp := envelopeOf (env_statusConfigMap env) (effectiveCode c)
                msg data details in
  marshal (Response_Value resp) = Ok j →
  env_write_err env = Some e →
  trace (HTTPResponse r c msg data details) env =
    prologue c r ++ securityHeaders ++
    [ WriteHeader (StatusCode resp);
      Write (render j +:+ newline);
      Log (encodeFailureRecord (ctxOf r)
             (accumulatedAttrs resp (snapshotOf r)) e) ].
Proof.
  intros resp Hj He. rewrite HTTPResponse_trace. cbv zeta.
  unfold epilogue. fold resp. by rewrite Hj, He.
Qed.

(** A call whose data is a channel. *)
Example encode_failure_chan :
  HTTPResponse None 200 "ok" (Some VChan) ∅ defaultEnv =
  (Returned {| Status := "success"; StatusCode := 200; Message := "ok";
               Data := Some VChan; Error := None |},
   [ Log nilRequestWarning;
     HeaderSet "Content-Type" "application/json";
     HeaderSet "X-Content-Type-Options" "nosniff";
     HeaderSet "Cache-Control" "no-cache, no-store, must-revalidate";
     WriteHeader 200;
     Log {| log_ctx := Background; log_level := slog.LevelError;
            log_msg := "Failed to encode JSON response";
            log_attrs :=
              [ slog_Int "statusCode" 200;
                slog_String "status" "success";
                slog_String "message" "ok";
                slog_String "method" "";
                slog_String "path" "";
                slog_String "user_agent" "";
                slog_String "remote_ip" "";
                slog_Any_error "encoding_error"
                  (UnsupportedTypeError "chan") ] |} ]).
Proof. reflexivity. Qed.

(** ** The scenarios of section 8 *)

Example scenario_success :
  let t := trace (HTTPResponse (Some req_test) 200 "Success!"
                    (Some (VMap (Some [("foo", VString "bar")]))) ∅)
             defaultEnv in
  statusLines t = [200] ∧
  body t = "{" +:+ json_quote "status" +:+ ":" +:+ json_quote "success" +:+ ","
               +:+ json_quote "statusCode" +:+ ":200,"
               +:+ json_quote "message" +:+ ":" +:+ json_quote "Success!" +:+ ","
               +:+ json_quote "data" +:+ ":{"
               +:+ json_quote "foo" +:+ ":" +:+ json_quote "bar" +:+ "}}"
               +:+ newline.
Proof. split; vm_compute; reflexivity. Qed.

Example scenario_bad_request :
  outcome (HTTPResponse (Some req_test) 400 "" None {[ "field" := "email" ]})
    defaultEnv =
  Returned {| Status := "error"; StatusCode := 400;
              Message := "The request contains invalid data";
              Data := None;
              Error := Some {| Type_ := "validation_error";
                               Details := {[ "field" := "email" ]} |} |}.
Proof. reflexivity. Qed.

(** An unregistered error code, and a code registered without an
    error type, both get the type "unknown_error". *)
Example scenario_unregistered_error :
  outcome (HTTPResponse None 418 "" None ∅) defaultEnv =
  Returned {| Status := "error"; StatusCode := 418;
              Message := "Client error occurred"; Data := None;
              Error := Some {| Type_ := "unknown_error"; Details := ∅ |} |}.
Proof. reflexivity. Qed.

Example scenario_registered_without_type :
  let teapot := {| LogLevel := slog.LevelWarn;
                   DefaultMessage := "I am a teapot"; ErrorType := "" |} in
  outcome (HTTPResponse None 418 "" None ∅)
    {| env_statusConfigMap := <[418 := teapot]> statusConfigMap;
       env_write_err := None |} =
  Returned {| Status := "error"; StatusCode := 418;
              Message := "I am a teapot"; Data := None;
              Error := Some {| Type_ := "unknown_error"; Details := ∅ |} |}.
Proof. reflexivity. Qed.

Example getMessageForStatus_registered :
  getMessageForStatus statusConfigMap 404 "" =
  "The requested resource was not found".
Proof. reflexivity. Qed.

Example getMessageForStatus_unregistered :
  getMessageForStatus statusConfigMap 418 "" = "Client error occurred" ∧
  getMessageForStatus statusConfigMap 299 "" = "Request completed successfully" ∧
  getMessageForStatus statusConfigMap 302 "" = "Request requires further action" ∧
  getMessageForStatus statusConfigMap 599 "" = "Server error occurred" ∧
  getMessageForStatus statusConfigMap 100 "" = "Response completed".
Proof. repeat split; reflexivity. Qed.

(** ** The nil request *)

(** With a nil request [HTTPResponse] accumulates the attributes of
    the zero [RequestInfo]. *)
Lemma HTTPResponse_nil_request_trace `{GoLib} env c msg data details :
  let resp := envelopeOf (env_statusConfigMap env) (effectiveCode c)
                msg data details in
  trace (HTTPResponse None c msg data details) env =
  prologue c None ++ securityHeaders ++ [WriteHeader (effectiveCode c)] ++
  epilogue env Background resp (accumulatedAttrs resp RequestInfo_zero).
Proof. apply HTTPResponse_trace. Qed.


(** C6 fails on [HTTPResponse]: with a nil request it logs the warning
    but keeps the zero [RequestInfo], so the record of the response
    carries four empty strings where the placeholder "UNKNOWN" is
    expected.  The call is [HTTPResponse(w, nil, 200, "ok", nil, nil)]. *)
Theorem HTTPResponse_nil_request_zero_snapshot :
  HTTPResponse None 200 "ok" None ∅ defaultEnv =
  (Returned {| Status := "success"; StatusCode := 200; Message := "ok";
               Data := None; Error := None |},
   [ Log {| log_ctx := Background; log_level := slog.LevelWarn;
            log_msg := "JSON response called with nil request";
            log_attrs := [] |};
     HeaderSet "Content-Type" "application/json";
     HeaderSet "X-Content-Type-Options" "nosniff";
     HeaderSet "Cache-Control" "no-cache, no-store, must-revalidate";
     WriteHeader 200;
     Write ("{" +:+ json_quote "status" +:+ ":" +:+ json_quote "success" +:+ ","
                +:+ json_quote "statusCode" +:+ ":200,"
                +:+ json_quote "message" +:+ ":" +:+ json_quote "ok" +:+ "}"
                +:+ newline);
     Log {| log_ctx := Background; log_level := slog.LevelInfo;
            log_msg := "HTTP response sent";
            log_attrs :=
              [ slog_Int "statusCode" 200;
                slog_String "status" "success";
                slog_String "message" "ok";
                slog_String "method" "";
                slog_String "path" "";
                slog_String "user_agent" "";
                slog_String "remote_ip" "" ] |} ]).
Proof. vm_compute. reflexivity. Qed.

(** ** The older dispatcher *)

Section legacy_run.
Context `{GoLib}.
Variable extract : Request → gmap string Value.

(** One run of [JSONResponse] on a request information map that
    stores four strings. *)
Lemma JSONResponse_run env r c msg data details ri :
  reqInfoOf extract r !! "method" = Some (VString (ri_Method ri)) →
  reqInfoOf extract r !! "path" = Some (VString (ri_Path ri)) →
  reqInfoOf extract r !! "user_agent" = Some (VString (ri_UserAgent ri)) →
  reqInfoOf extract r !! "remote_ip" = Some (VString (ri_RemoteIP ri)) →
  let m := env_statusConfigMap env in
  let resp := envelopeOf m (effectiveCode c) msg data details in
  JSONResponse extract r c msg data details env =
    (Returned resp,
     prologue c r ++ securityHeaders ++
     [Log (earlyRecord m (effectiveCode c) msg);
      WriteHeader (effectiveCode c)] ++
     epilogue env (ctxOf r) resp (accumulatedAttrs resp ri)).
Proof.
  intros Hm Hp Hu Hi.
  unfold JSONResponse, validateStatusCode, prologue, epilogue, effectiveCode,
    envelopeOf, accumulatedAttrs, Encode, responseRecord, encodeFailureRecord,
    errorTypeFor, responseLevel, snapshotOf, ctxOf, earlyRecord,
    http.StatusInternalServerError, invalidCode.
  unfold responseLogMessage.
  destruct ((c <? 100) || (c >? 599)), r as [r|];
    unfold reqInfoOf in Hm, Hp, Hu, Hi;
    unfold mbind, M_bind, mret, M_ret, ask, Logger_Warn, Logger_ErrorContext,
      Logger_LogAttrs, w_Header_Set, w_WriteHeader, w_Write, emit;
    cbn -[marshal render getMessageForStatus Response_Value];
    fold unknownRequestInfo;
    rewrite Hm, Hp, Hu, Hi;
    destruct (c >=? 400) eqn:E4, (c >=? 500) eqn:E5;
    try (exfalso; rewrite geb_spec in E4, E5;
         apply bool_decide_eq_true in E5;
         apply bool_decide_eq_false in E4; lia);
    cbn -[marshal render getMessageForStatus Response_Value];
    match goal with |- context [marshal ?v] => destruct (marshal v) end;
    try destruct (env_write_err env);
    reflexivity.
Qed.

(** With a nil request [JSONResponse] logs the placeholder
    "UNKNOWN" in the four request attributes. *)
Lemma JSONResponse_nil_request_unknown env c msg data details :
  let m := env_statusConfigMap env in
  let resp := envelopeOf m (effectiveCode c) msg data details in
  JSONResponse extract None c msg data details env =
    (Returned resp,
     prologue c None ++ securityHeaders ++
     [Log (earlyRecord m (effectiveCode c) msg);
      WriteHeader (effectiveCode c)] ++
     epilogue env Background resp (accumulatedAttrs resp RequestInfo_unknown)).
Proof. by apply JSONResponse_run. Qed.

Lemma reqInfoOf_strings (r : option Request) :
  stores_strings extract →
  ∃ ri, reqInfoOf extract r !! "method" = Some (VString (ri_Method ri)) ∧
        reqInfoOf extract r !! "path" = Some (VString (ri_Path ri)) ∧
        reqInfoOf extract r !! "user_agent" = Some (VString (ri_UserAgent ri)) ∧
        reqInfoOf extract r !! "remote_ip" = Some (VString (ri_RemoteIP ri)).
Proof.
  intros Hex. destruct r as [r|].
  - destruct (Hex r "method") as [s1 H1]; [set_solver|].
    destruct (Hex r "path") as [s2 H2]; [set_solver|].
    destruct (Hex r "user_agent") as [s3 H3]; [set_solver|].
    destruct (Hex r "remote_ip") as [s4 H4]; [set_solver|].
    by exists {| ri_Method := s1; ri_Path := s2;
                 ri_UserAgent := s3; ri_RemoteIP := s4 |}.
  - by exists RequestInfo_unknown.
Qed.

(** What [JSONResponse] does to the response writer does not depend
    on the request either, for an extractor that stores strings. *)
Lemma JSONResponse_independent_of_request env r1 r2 c msg data details :
  stores_strings extract →
  written (trace (JSONResponse extract r1 c msg data details) env) =
  written (trace (JSONResponse extract r2 c msg data details) env).
Proof.
  intros Hex.
  destruct (reqInfoOf_strings r1 Hex) as (ri1 & ? & ? & ? & ?).
  destruct (reqInfoOf_strings r2 Hex) as (ri2 & ? & ? & ? & ?).
  unfold trace.
  rewrite (JSONResponse_run env r1 c msg data details ri1) by done.
  rewrite (JSONResponse_run env r2 c msg data details ri2) by done.
  cbv zeta. cbn [snd].
  rewrite !written_app, !prologue_written.
  set (resp := envelopeOf _ _ _ _ _).
  by rewrite (epilogue_written env (ctxOf r1) (ctxOf r2) resp
                (accumulatedAttrs resp ri1) (accumulatedAttrs resp ri2)).
Qed.
End legacy_run.

(** The extractor modelled from the specification stores strings. *)
Lemma extractRequestInfo_map_stores_strings `{GoLib} :
  stores_strings extractRequestInfo_map.
Proof.
  intros r key Hkey. unfold extractRequestInfo_map.
  repeat (apply elem_of_cons in Hkey as [->|Hkey]); [..|by apply elem_of_nil in Hkey];
    eexists; reflexivity.
Qed.

(** * Further properties *)

(** ** The shipped registry *)

Lemma statusConfigMap_Forall : map_Forall well_formed_entry statusConfigMap.
Proof.
  apply (bool_decide_unpack (map_Forall well_formed_entry statusConfigMap)).
  vm_compute. exact I.
Qed.

(** X1: every entry of the shipped [statusConfigMap] has a code between
    200 and 506 and a non-empty default message; its error type is
    empty exactly below 400 and is never "unknown_error"; it logs at
    info level below 400 and at error level from 500 on. *)
Theorem statusConfigMap_well_formed (c : Z) (config : StatusConfig) :
  GetStatusConfig statusConfigMap c = Some config →
  well_formed_entry c config.
Proof. apply statusConfigMap_Forall. Qed.

Lemma statusConfigMap_well_formed_witness :
  GetStatusConfig statusConfigMap 404 =
    Some {| LogLevel := slog.LevelInfo;
            DefaultMessage := "The requested resource was not found";
            ErrorType := "not_found" |} ∧
  well_formed_entry 404
    {| LogLevel := slog.LevelInfo;
       DefaultMessage := "The requested resource was not found";
       ErrorType := "not_found" |}.
Proof.
  split; [reflexivity|].
  apply (statusConfigMap_well_formed 404). reflexivity.
Defined.

(** ** Validation *)

(** X2: [validateStatusCode] always returns a code in [100,599].  A
    code of that range is returned unchanged and nothing is logged; for
    a code outside it 500 is returned and the only event is one log
    record at warn level naming the provided code.  Validating the
    result again changes nothing and logs nothing. *)
Theorem validateStatusCode_range_idempotent `{GoLib} (env : Env) (c : Z) :
  ∃ c', outcome (validateStatusCode c) env = Returned c' ∧
    100 ≤ c' ≤ 599 ∧
    (100 ≤ c ≤ 599 → c' = c ∧ trace (validateStatusCode c) env = []) ∧
    (c < 100 ∨ 599 < c →
       c' = 500 ∧
       trace (validateStatusCode c) env =
         [Log {| log_ctx := Background; log_level := slog.LevelWarn;
                 log_msg := "Invalid HTTP status code provided, using 500";
                 log_attrs := [slog_Int "provided_code" c] |}]) ∧
    validateStatusCode c' env = (Returned c', []).
Proof.
  unfold validateStatusCode, outcome, trace.
  destruct ((c <? 100) || (c >? 599)) eqn:E.
  - exists 500. cbn. repeat split; try done; lia.
  - exists c. cbn. rewrite E. repeat split; try done; lia.
Qed.

(** ** More on the client-IP resolver *)

Lemma firstValidIP_parses `{GoLib} (ips : list string) (ip : string) :
  firstValidIP ips = Some ip → parses_as_IP ip.
Proof.
  induction ips as [|x ips IH]; [done|]. cbn.
  destruct (net_ParseIP (strings_TrimSpace x)) as [a|] eqn:Hx; [|done].
  intros [= <-]. unfold parses_as_IP. by rewrite Hx.
Qed.

Lemma strings_Split_no_sep (s : string) (sep : ascii) :
  sep ∉ list_ascii_of_string s → strings_Split s sep = [s].
Proof.
  induction s as [|c s IH]; [done|]. cbn.
  rewrite not_elem_of_cons. intros [Hne Hs].
  destruct (Ascii.eqb c sep) eqn:Hc.
  - apply Ascii.eqb_eq in Hc. congruence.
  - by rewrite IH.
Qed.

Lemma Header_Get_forwarded (h : gmap string (list string)) (lines : list string) :
  Header_Get (<["X-Forwarded-For" := lines]> h) "X-Forwarded-For" =
  match lines with v :: _ => v | [] => "" end.
Proof.
  unfold Header_Get.
  change (CanonicalMIMEHeaderKey "X-Forwarded-For") with "X-Forwarded-For".
  by rewrite lookup_insert_eq.
Qed.

Lemma Header_Get_forwarded_real (h : gmap string (list string))
    (lines : list string) :
  Header_Get (<["X-Forwarded-For" := lines]> h) "X-Real-IP" =
  Header_Get h "X-Real-IP".
Proof.
  unfold Header_Get.
  change (CanonicalMIMEHeaderKey "X-Real-IP") with "X-Real-Ip".
  by rewrite lookup_insert_ne.
Qed.

(** X3: whatever the request, [getClientIP] returns either a string that
    [net.ParseIP] accepts or the remote address of the connection as
    it is. *)
Theorem getClientIP_valid_or_raw `{GoLib} (r : Request) :
  parses_as_IP (getClientIP r) ∨ getClientIP r = RemoteAddr r.
Proof.
  unfold getClientIP.
  case_bool_decide.
  - destruct (firstValidIP _) as [ip|] eqn:Hip.
    { left. by apply firstValidIP_parses in Hip. }
    case_bool_decide; cbn.
    + destruct (net_ParseIP (strings_TrimSpace _)) as [a|] eqn:Hreal.
      { left. unfold parses_as_IP. by rewrite Hreal. }
      destruct (net_SplitHostPort _) as [[host port]|e]; [|by right].
      destruct (net_ParseIP host) as [a|] eqn:Hhost; [|by right].
      left. unfold parses_as_IP. by rewrite Hhost.
    + destruct (net_SplitHostPort _) as [[host port]|e]; [|by right].
      destruct (net_ParseIP host) as [a|] eqn:Hhost; [|by right].
      left. unfold parses_as_IP. by rewrite Hhost.
  - case_bool_decide; cbn.
    + destruct (net_ParseIP (strings_TrimSpace _)) as [a|] eqn:Hreal.
      { left. unfold parses_as_IP. by rewrite Hreal. }
      destruct (net_SplitHostPort _) as [[host port]|e]; [|by right].
      destruct (net_ParseIP host) as [a|] eqn:Hhost; [|by right].
      left. unfold parses_as_IP. by rewrite Hhost.
    + destruct (net_SplitHostPort _) as [[host port]|e]; [|by right].
      destruct (net_ParseIP host) as [a|] eqn:Hhost; [|by right].
      left. unfold parses_as_IP. by rewrite Hhost.
Qed.

(** X4: a single address in [X-Forwarded-For] overrides everything else:
    when the header value is not empty, holds no comma and parses after
    trimming, [getClientIP] returns the trimmed value, whatever
    [X-Real-IP] and the remote address of the connection are. *)
Theorem getClientIP_forwarded_overrides `{GoLib} (r : Request) (s : string) :
  s ≠ "" →
  ("," : ascii) ∉ list_ascii_of_string s →
  parses_as_IP (strings_TrimSpace s) →
  getClientIP (with_forwarded r [s]) = strings_TrimSpace s.
Proof.
  intros Hne Hcomma [a Ha].
  unfold getClientIP, with_forwarded. cbn [Header RemoteAddr].
  rewrite Header_Get_forwarded.
  rewrite bool_decide_true by done.
  rewrite strings_Split_no_sep by done.
  cbn. by rewrite Ha.
Qed.

Lemma getClientIP_forwarded_overrides_witness :
  ("203.0.113.7" ≠ "") ∧
  (("," : ascii) ∉ list_ascii_of_string "203.0.113.7") ∧
  parses_as_IP (strings_TrimSpace "203.0.113.7") ∧
  getClientIP (with_forwarded req_test ["203.0.113.7"]) = "203.0.113.7".
Proof.
  assert (H1 : "203.0.113.7" ≠ "").
  { discriminate. }
  assert (H2 : ("," : ascii) ∉ list_ascii_of_string "203.0.113.7").
  { apply (bool_decide_unpack
             (("," : ascii) ∉ list_ascii_of_string "203.0.113.7")).
    vm_compute. exact I. }
  assert (H3 : parses_as_IP (strings_TrimSpace "203.0.113.7")).
  { eexists. vm_compute. reflexivity. }
  split; [exact H1|]. split; [exact H2|]. split; [exact H3|].
  exact (getClientIP_forwarded_overrides req_test "203.0.113.7" H1 H2 H3).
Defined.

(** X5: only the first [X-Forwarded-For] header line is read: further
    lines never change the result, and an empty first line makes the
    resolver behave as if the header were absent. *)
Theorem getClientIP_first_forwarded_line `{GoLib}
    (r : Request) (v : string) (vs : list string) :
  getClientIP (with_forwarded r (v :: vs)) = getClientIP (with_forwarded r [v]) ∧
  getClientIP (with_forwarded r ("" :: vs)) = getClientIP (with_forwarded r []).
Proof.
  unfold getClientIP, with_forwarded. cbn [Header RemoteAddr].
  by rewrite !Header_Get_forwarded, !Header_Get_forwarded_real.
Qed.

Example getClientIP_second_line_ignored :
  getClientIP (req_with {[ "X-Forwarded-For" := ["unknown"; "8.8.8.8"] ]}
                 "6.6.6.6:1234") = "6.6.6.6".
Proof. vm_compute. reflexivity. Qed.

(** ** More on the wire format *)

Lemma sequence_snd_ok {A} (l : list (string * result A)) :
  Forall entry_ok l →
  ∃ l', sequence_snd l = Ok l' ∧ (l' = [] ↔ l = []).
Proof.
  induction 1 as [|[k ra] l [a Ha] _ [l' [IH _]]]; cbn in *.
  - by exists [].
  - subst ra. rewrite IH. by eexists.
Qed.

Lemma insert_by_key_ok {A} k (ra : result A) l :
  entry_ok (k, ra) → Forall entry_ok l → Forall entry_ok (insert_by_key k ra l).
Proof.
  intros Hk. induction 1 as [|[k' ra'] l Hx Hl IH]; cbn.
  - by constructor.
  - destruct (String.leb k k'); repeat constructor; done.
Qed.

Lemma sort_by_key_ok {A} (l : list (string * result A)) :
  Forall entry_ok l → Forall entry_ok (sort_by_key l).
Proof.
  induction 1 as [|[k ra] l Hx Hl IH]; [constructor|].
  cbn. by apply insert_by_key_ok.
Qed.

Lemma insert_by_key_nonempty {A} k (a : A) l : insert_by_key k a l ≠ [].
Proof. destruct l as [|[k' a'] l]; cbn; [done|]. by destruct (String.leb k k'). Qed.

Lemma marshal_VStruct (fields : list (FieldTag * Value)) :
  marshal (VStruct fields) =
  result_map JObject
    (sequence_snd
       (omap (λ fv : FieldTag * Value,
                if tag_omitempty fv.1 && isEmptyValue fv.2 then None
                else Some (tag_name fv.1, marshal fv.2))
             fields)).
Proof. reflexivity. Qed.

(** A map of strings is always serializable. *)
Lemma marshal_string_map (kvs : list (string * Value)) :
  Forall (λ kv, ∃ s, kv.2 = VString s) kvs →
  ∃ members, marshal (VMap (Some kvs)) = Ok (JObject members).
Proof.
  intros Hkvs.
  change (marshal (VMap (Some kvs))) with
    (result_map JObject
       (sequence_snd (sort_by_key (map (λ kv, (kv.1, marshal kv.2)) kvs)))).
  destruct (sequence_snd_ok
              (sort_by_key (map (λ kv, (kv.1, marshal kv.2)) kvs)))
    as [l' [Hl' _]].
  - apply sort_by_key_ok, Forall_map.
    eapply Forall_impl; [exact Hkvs|].
    intros [k v] [s Hs]. cbn in *. subst v. by eexists.
  - rewrite Hl'. by eexists.
Qed.

Lemma Details_strings (d : gmap string string) :
  Forall (λ kv : string * Value, ∃ s, kv.2 = VString s)
    (map_to_list (VString <$> d)).
Proof.
  apply Forall_forall. intros [k v] Hkv.
  apply elem_of_map_to_list in Hkv.
  apply lookup_fmap_Some in Hkv as (s & <- & _). by eexists.
Qed.

(** An error detail is always serializable. *)
Lemma marshal_ErrorInfo_ok (e : ErrorInfo) :
  ∃ j, marshal (ErrorInfo_Value e) = Ok j ∧
       member "type" j = Some (JString (Type_ e)) ∧
       (member "details" j = None ↔ Details e = ∅).
Proof.
  destruct e as [ty d]. unfold ErrorInfo_Value. cbn [Type_ Details].
  pose proof (Details_strings d) as Hd.
  assert (Hempty : map_to_list (VString <$> d) = [] ↔ d = ∅).
  { rewrite map_to_list_empty_iff. apply fmap_empty_iff. }
  destruct (marshal_string_map _ Hd) as [members Hm].
  revert Hd Hempty Hm. generalize (map_to_list (VString <$> d)). intros kvs _ Hempty Hm.
  rewrite marshal_VStruct. cbn -[marshal].
  case_bool_decide as Hkvs; cbn -[marshal]; rewrite ?Hm; cbn.
  - eexists. split; [done|]. split; [done|]. by rewrite <- Hempty.
  - eexists. split; [done|]. split; [done|]. cbn. rewrite <- Hempty. by split.
Qed.

(** X6: the error detail of types.go is always serializable: its [type]
    member is always written, and its [details] member is left out
    exactly when the details map is empty (or nil). *)
Theorem ErrorInfo_wire_format (e : ErrorInfo) :
  ∃ j, marshal (ErrorInfo_Value e) = Ok j ∧
       member "type" j = Some (JString (Type_ e)) ∧
       (member "details" j = None ↔ Details e = ∅).
Proof. apply marshal_ErrorInfo_ok. Qed.

Lemma marshal_Response_error_iff (resp : Response) (e : GoError) :
  marshal (Response_Value resp) = Err e ↔
  ∃ v, Data resp = Some v ∧ marshal v = Err e.
Proof.
  destruct resp as [status code message data error].
  assert (Herror : ∃ j, marshal (VPtr (ErrorInfo_Value <$> error)) = Ok j).
  { destruct error as [ei|]; cbn -[ErrorInfo_Value]; [|by eexists].
    destruct (marshal_ErrorInfo_ok ei) as (j & Hj & _). by eexists. }
  destruct Herror as [je Hje].
  destruct data as [v|], error as [ei|];
    cbn -[marshal]; cbn -[ErrorInfo_Value]; cbn -[ErrorInfo_Value] in Hje;
    rewrite ?Hje; cbn -[ErrorInfo_Value];
    try (destruct (marshal v) as [jv|ev] eqn:Hv; cbn);
    split; try done;
    try (intros [= <-]; by eexists);
    try (intros (v' & [= <-] & Hv'); congruence);
    try (by intros (v' & [=] & _)).
Qed.

(** X7: serializing an envelope fails exactly when its data is not nil and
    cannot be serialized, and then with the error of the data: the
    other fields, the error detail included, never make it fail. *)
Theorem envelope_fails_only_on_data (resp : Response) (e : GoError) :
  marshal (Response_Value resp) = Err e ↔
  ∃ v, Data resp = Some v ∧ marshal v = Err e.
Proof. apply marshal_Response_error_iff. Qed.

(** X8: with nil data [HTTPResponse] always hands a body to the writer,
    for every status code, message, details and registry content. *)
Theorem HTTPResponse_nil_data_has_body `{GoLib}
    (env : Env) (r : option Request) (c : Z) (msg : string)
    (details : gmap string string) :
  ∃ resp j, outcome (HTTPResponse r c msg None details) env = Returned resp ∧
    marshal (Response_Value resp) = Ok j ∧
    body (trace (HTTPResponse r c msg None details) env) = render j +:+ newline.
Proof.
  rewrite HTTPResponse_outcome, HTTPResponse_body.
  destruct (marshal _) as [j|e] eqn:Hj.
  - eexists _, j. split; [reflexivity|]. split; [exact Hj|reflexivity].
  - apply marshal_Response_error_iff in Hj as (v & Hv & _). done.
Qed.


(** ** More on the dispatcher *)


Lemma epilogue_written_cases `{GoLib} env ctx resp attrs :
  written (epilogue env ctx resp attrs) =
  match marshal (Response_Value resp) with
  | Ok j => [Write (render j +:+ newline)]
  | Err _ => []
  end.
Proof.
  unfold epilogue.
  by destruct (marshal _), (env_write_err env).
Qed.






(** X13: for a status code from 100 to 399 the details are not used at
    all: two calls that differ only in their details build the same
    envelope and cause the same events. *)
Theorem HTTPResponse_details_unused_below_400 `{GoLib}
    (env : Env) (r : option Request) (c : Z) (msg : string)
    (data : option Value) (details1 details2 : gmap string string) :
  100 ≤ c < 400 →
  HTTPResponse r c msg data details1 env =
  HTTPResponse r c msg data details2 env.
Proof.
  intros Hc. rewrite !HTTPResponse_run. cbv zeta.
  rewrite (effectiveCode_valid c) by lia.
  assert (Henv : ∀ d, envelopeOf (env_statusConfigMap env) c msg data d =
                      {| Status := "success"; StatusCode := c;
                         Message := getMessageForStatus (env_statusConfigMap env) c msg;
                         Data := data; Error := None |}).
  { intros d. unfold envelopeOf. rewrite geb_spec.
    by rewrite bool_decide_false by lia. }
  by rewrite !Henv.
Qed.

Lemma HTTPResponse_details_unused_below_400_witness :
  100 ≤ 201 < 400 ∧
  HTTPResponse None 201 "" None {[ "field" := "email" ]} defaultEnv =
  HTTPResponse None 201 "" None ∅ defaultEnv.
Proof.
  split; [lia|].
  apply (HTTPResponse_details_unused_below_400 defaultEnv None 201 "" None).
  lia.
Defined.




(** ** Extending the registry and configuring the logger *)

(** X15: [AddStatusConfig] stores the configuration under the code,
    leaves every other code and the writer alone, and warns, once and
    naming the code, exactly when it replaces an entry. *)
Theorem AddStatusConfig_stores_and_warns
    (env : Env) (statusCode : Z) (config : StatusConfig) :
  let env' := (AddStatusConfig statusCode config env).1 in
  let events := (AddStatusConfig statusCode config env).2 in
  GetStatusConfig (env_statusConfigMap env') statusCode = Some config ∧
  (∀ c, c ≠ statusCode →
     GetStatusConfig (env_statusConfigMap env') c =
     GetStatusConfig (env_statusConfigMap env) c) ∧
  env_write_err env' = env_write_err env ∧
  (events = [] ↔ GetStatusConfig (env_statusConfigMap env) statusCode = None) ∧
  (is_Some (GetStatusConfig (env_statusConfigMap env) statusCode) →
     events =
       [Log {| log_ctx := Background; log_level := slog.LevelWarn;
               log_msg := "Status code already exists, updating configuration";
               log_attrs := [slog_Int "statusCode" statusCode] |}]).
Proof.
  unfold AddStatusConfig, GetStatusConfig.
  destruct (env_statusConfigMap env !! statusCode) as [old|] eqn:Hold; cbn.
  - rewrite lookup_insert_eq. repeat split; try done.
    intros c Hc. by rewrite lookup_insert_ne.
  - rewrite lookup_insert_eq. repeat split; try done;
      try (by intros [??]).
    intros c Hc. by rewrite lookup_insert_ne.
Qed.

(** X16: registering a code twice keeps the second configuration only, as
    if the first call had not been made, and the second call always
    warns; registrations of two different codes can be made in either
    order. *)
Theorem AddStatusConfig_compose
    (env : Env) (c1 c2 : Z) (config1 config2 : StatusConfig) :
  (AddStatusConfig c1 config2 (AddStatusConfig c1 config1 env).1).1 =
    (AddStatusConfig c1 config2 env).1 ∧
  (AddStatusConfig c1 config2 (AddStatusConfig c1 config1 env).1).2 =
    [Log {| log_ctx := Background; log_level := slog.LevelWarn;
            log_msg := "Status code already exists, updating configuration";
            log_attrs := [slog_Int "statusCode" c1] |}] ∧
  (c1 ≠ c2 →
     (AddStatusConfig c2 config2 (AddStatusConfig c1 config1 env).1).1 =
     (AddStatusConfig c1 config1 (AddStatusConfig c2 config2 env).1).1).
Proof.
  unfold AddStatusConfig.
  split; [|split].
  - destruct (env_statusConfigMap env !! c1); cbn;
      rewrite lookup_insert_eq; cbn; by rewrite insert_insert_eq.
  - destruct (env_statusConfigMap env !! c1); cbn;
      by rewrite lookup_insert_eq.
  - intros Hne.
    destruct (env_statusConfigMap env !! c1) eqn:H1,
             (env_statusConfigMap env !! c2) eqn:H2; cbn;
      rewrite !lookup_insert_ne, ?H1, ?H2 by done; cbn;
      f_equal; by apply insert_insert_ne.
Qed.

Lemma getMessageForStatus_insert_ne m c config k msg :
  k ≠ c →
  getMessageForStatus (<[c := config]> m) k msg = getMessageForStatus m k msg.
Proof. intros Hne. unfold getMessageForStatus. by rewrite lookup_insert_ne. Qed.

Lemma HTTPResponse_insert_ne `{GoLib} (env : Env) (c : Z) (config : StatusConfig)
    r c0 msg data details :
  effectiveCode c0 ≠ c →
  HTTPResponse r c0 msg data details
    {| env_statusConfigMap := <[c := config]> (env_statusConfigMap env);
       env_write_err := env_write_err env |} =
  HTTPResponse r c0 msg data details env.
Proof.
  intros Hne. rewrite !HTTPResponse_run. cbv zeta.
  cbn [env_statusConfigMap env_write_err].
  assert (Henv : envelopeOf (<[c := config]> (env_statusConfigMap env))
                   (effectiveCode c0) msg data details =
                 envelopeOf (env_statusConfigMap env)
                   (effectiveCode c0) msg data details).
  { unfold envelopeOf, errorTypeFor.
    by rewrite getMessageForStatus_insert_ne, lookup_insert_ne. }
  rewrite Henv. do 4 f_equal.
  unfold epilogue, responseRecord, responseLevel.
  cbn [env_statusConfigMap env_write_err StatusCode envelopeOf].
  by rewrite lookup_insert_ne.
Qed.

(** X17: a configuration registered for a code outside [100,599] is never
    used: every call of [HTTPResponse] behaves after the registration
    as it did before. *)
Theorem AddStatusConfig_out_of_range_unused `{GoLib}
    (env : Env) (statusCode : Z) (config : StatusConfig)
    (r : option Request) (c : Z) (msg : string)
    (data : option Value) (details : gmap string string) :
  statusCode < 100 ∨ 599 < statusCode →
  HTTPResponse r c msg data details (AddStatusConfig statusCode config env).1 =
  HTTPResponse r c msg data details env.
Proof.
  intros Hout.
  assert (Hne : effectiveCode c ≠ statusCode).
  { pose proof (effectiveCode_range c). lia. }
  unfold AddStatusConfig.
  destruct (env_statusConfigMap env !! statusCode); cbn [fst];
    by apply HTTPResponse_insert_ne.
Qed.

Lemma AddStatusConfig_out_of_range_unused_witness :
  (700 < 100 ∨ 599 < 700) ∧
  HTTPResponse None 700 "" None ∅
    (AddStatusConfig 700 {| LogLevel := slog.LevelInfo;
                           DefaultMessage := "Custom"; ErrorType := "" |}
       defaultEnv).1 =
  HTTPResponse None 700 "" None ∅ defaultEnv.
Proof.
  split; [lia|].
  apply (AddStatusConfig_out_of_range_unused defaultEnv 700). lia.
Defined.

(** X18: a configuration registered for a code of [100,599] takes effect in
    the next call with that code: with an empty message the envelope
    carries the registered default message; from 400 on its error type
    is the registered one when that is not empty; and the final log
    record is written at the registered level. *)
Theorem AddStatusConfig_takes_effect `{GoLib}
    (env : Env) (statusCode : Z) (config : StatusConfig)
    (r : option Request) (data : option Value)
    (details : gmap string string) :
  100 ≤ statusCode ≤ 599 →
  let env' := (AddStatusConfig statusCode config env).1 in
  let t := trace (HTTPResponse r statusCode "" data details) env' in
  ∃ resp, outcome (HTTPResponse r statusCode "" data details) env' = Returned resp ∧
    StatusCode resp = statusCode ∧
    Message resp = DefaultMessage config ∧
    (400 ≤ statusCode → ErrorType config ≠ "" →
       ∃ errorInfo, Error resp = Some errorInfo ∧
                    Type_ errorInfo = ErrorType config) ∧
    (∀ j, marshal (Response_Value resp) = Ok j → env_write_err env = None →
       ∃ rec, last t = Some (Log rec) ∧ log_level rec = LogLevel config).
Proof.
  intros Hc env' t.
  assert (Henv' : env' =
    {| env_statusConfigMap := <[statusCode := config]> (env_statusConfigMap env);
       env_write_err := env_write_err env |}).
  { subst env'. unfold AddStatusConfig.
    by destruct (env_statusConfigMap env !! statusCode). }
  subst t. rewrite Henv'. clear Henv' env'.
  rewrite HTTPResponse_outcome, HTTPResponse_trace. cbv zeta.
  rewrite (effectiveCode_valid statusCode Hc).
  cbn [env_statusConfigMap env_write_err].
  set (resp := envelopeOf (<[statusCode := config]> (env_statusConfigMap env))
                 statusCode "" data details).
  exists resp. split; [done|]. split; [done|]. split.
  { unfold resp, envelopeOf, getMessageForStatus. cbn.
    by rewrite lookup_insert_eq. }
  split.
  { intros Hge Hty. unfold resp, envelopeOf. cbn [Error].
    rewrite geb_spec, bool_decide_true by done.
    eexists. split; [done|]. cbn. unfold errorTypeFor.
    by rewrite lookup_insert_eq, bool_decide_true. }
  intros j Hj Hw. unfold epilogue. rewrite Hj.
  cbn [env_write_err]. rewrite Hw.
  eexists. split.
  { rewrite !app_assoc.
    match goal with |- last (?l ++ [?a; ?b]) = _ =>
      replace (l ++ [a; b]) with ((l ++ [a]) ++ [b])
        by (by rewrite <- !app_assoc) end.
    apply last_snoc. }
  cbn. unfold responseLevel. by rewrite lookup_insert_eq.
Qed.

Lemma AddStatusConfig_takes_effect_witness :
  100 ≤ 418 ≤ 599 ∧
  ∃ resp,
    outcome (HTTPResponse None 418 "" None ∅)
      (AddStatusConfig 418 {| LogLevel := slog.LevelWarn;
                             DefaultMessage := "I am a teapot";
                             ErrorType := "teapot" |} defaultEnv).1
    = Returned resp ∧
    Message resp = "I am a teapot".
Proof.
  split; [lia|].
  destruct (AddStatusConfig_takes_effect defaultEnv 418
              {| LogLevel := slog.LevelWarn; DefaultMessage := "I am a teapot";
                 ErrorType := "teapot" |} None None ∅)
    as (resp & Hout & _ & Hmsg & _); [lia|].
  by exists resp.
Defined.

Lemma last_cons_default {A} (x y : A) (l : list A) :
  default x (last (y :: l)) = default y (last l).
Proof.
  destruct l as [|z l]; [done|].
  change (last (y :: z :: l)) with (last (z :: l)).
  destruct (last (z :: l)) as [w|] eqn:Hlast; [done|].
  by apply last_None in Hlast.
Qed.

(** X19: after any sequence of [SetConfig] calls the package logger is not
    nil: it is the last non-nil logger that was given, or the initial
    one if there was none; a call with a nil logger changes nothing. *)
Theorem SetConfig_logger_never_nil {Logger : Type}
    (initial : Logger) (cfgs : list (Config Logger)) :
  cfg_Logger (foldl (λ defaultConfig cfg, SetConfig cfg defaultConfig)
                {| cfg_Logger := Some initial |} cfgs) =
  Some (default initial (last (omap cfg_Logger cfgs))).
Proof.
  revert initial. induction cfgs as [|[[logger|]] cfgs IH]; intros initial.
  - done.
  - cbn. rewrite IH. by rewrite last_cons_default.
  - cbn. apply IH.
Qed.

(** ** More on the older dispatcher *)

Section legacy_more.
Context `{GoLib}.
Variable extract : Request → gmap string Value.

(** X20: for an extractor that stores a string under each of its four
    keys, [JSONResponse] and [HTTPResponse] send the same response:
    the same calls on the response writer and the same envelope, for
    every request, nil or not. *)
Theorem JSONResponse_same_response env r c msg data details :
  stores_strings extract →
  written (trace (JSONResponse extract r c msg data details) env) =
  written (trace (HTTPResponse r c msg data details) env) ∧
  outcome (JSONResponse extract r c msg data details) env =
  outcome (HTTPResponse r c msg data details) env.
Proof.
  intros Hex.
  destruct (reqInfoOf_strings extract r Hex) as (ri & ? & ? & ? & ?).
  unfold trace, outcome.
  rewrite (JSONResponse_run extract env r c msg data details ri) by done.
  rewrite HTTPResponse_run. cbv zeta. cbn [fst snd].
  split; [|done].
  rewrite !written_app, !prologue_written.
  set (resp := envelopeOf _ _ _ _ _).
  rewrite (epilogue_written env (ctxOf r) (ctxOf r) resp
             (accumulatedAttrs resp ri) (accumulatedAttrs resp (snapshotOf r))).
  reflexivity.
Qed.

(** X21: with a nil request [JSONResponse] never reads the extractor and
    never panics: it warns, and the last record it logs carries the
    placeholder "UNKNOWN" as method, path, user agent and remote IP. *)
Theorem JSONResponse_nil_request_placeholders env c msg data details :
  let t := trace (JSONResponse extract None c msg data details) env in
  (∃ resp, outcome (JSONResponse extract None c msg data details) env
           = Returned resp) ∧
  Log {| log_ctx := Background; log_level := slog.LevelWarn;
         log_msg := "JSON response called with nil request";
         log_attrs := [] |} ∈ t ∧
  ∃ rec, last (logged t) = Some rec ∧
    slog_String "method" "UNKNOWN" ∈ log_attrs rec ∧
    slog_String "path" "UNKNOWN" ∈ log_attrs rec ∧
    slog_String "user_agent" "UNKNOWN" ∈ log_attrs rec ∧
    slog_String "remote_ip" "UNKNOWN" ∈ log_attrs rec.
Proof.
  intros t. subst t. unfold trace, outcome.
  rewrite JSONResponse_nil_request_unknown. cbv zeta. cbn [fst snd].
  split; [by eexists|]. split.
  { unfold prologue. rewrite !elem_of_app. left. right.
    apply list_elem_of_singleton. reflexivity. }
  set (resp := envelopeOf _ _ _ _ _).
  assert (Hattrs : ∀ key, key ∈ ["method"; "path"; "user_agent"; "remote_ip"] →
            slog_String key "UNKNOWN" ∈
              accumulatedAttrs resp RequestInfo_unknown).
  { intros key Hkey. unfold accumulatedAttrs. cbn [RequestInfo_unknown
      ri_Method ri_Path ri_UserAgent ri_RemoteIP].
    rewrite !elem_of_app. left.
    repeat (apply elem_of_cons in Hkey as [->|Hkey]);
      [..|by apply elem_of_nil in Hkey];
      rewrite !elem_of_cons; tauto. }
  unfold epilogue.
  destruct (marshal _) as [j|e]; [destruct (env_write_err env) as [e|]|];
    rewrite !logged_app; cbn [logged omap list_omap];
    (eexists; split; [rewrite !app_assoc; apply last_snoc|]);
    cbn [log_attrs encodeFailureRecord responseRecord];
    repeat split;
    first [ apply Hattrs; set_solver
          | apply elem_of_app; left; apply Hattrs; set_solver ].
Qed.
End legacy_more.

Lemma JSONResponse_same_response_witness :
  stores_strings extractRequestInfo_map ∧
  written (trace (JSONResponse extractRequestInfo_map (Some req_test)
                    404 "" None ∅) defaultEnv) =
  written (trace (HTTPResponse (Some req_test) 404 "" None ∅) defaultEnv).
Proof.
  split; [exact extractRequestInfo_map_stores_strings|].
  apply (JSONResponse_same_response extractRequestInfo_map defaultEnv
           (Some req_test) 404 "" None ∅).
  exact extractRequestInfo_map_stores_strings.
Defined.

(** * Failure of the serialization, and what determines the response *)

(** C8: when the data given cannot be serialized, the envelope that
    [HTTPResponse] builds from the arguments cannot be serialized
    either, with the same error.  The call then writes nothing after
    the status line; its last event is one log record at error
    severity that carries the accumulated attributes followed by the
    serialization error; it emits no final response record; and it
    returns normally. *)
Theorem encode_failure_is_logged_and_contained `{GoLib}
    (env : Env) (r : option Request) (c : Z) (msg : string)
    (v : Value) (details : gmap string string) (e : GoError) :
  marshal v = Err e →
  let code := if bool_decide (100 ≤ c ≤ 599) then c else 500 in
  let t := trace (HTTPResponse r c msg (Some v) details) env in
  ∃ resp,
    outcome (HTTPResponse r c msg (Some v) details) env = Returned resp ∧
    StatusCode resp = code ∧
    Status resp = (if bool_decide (400 ≤ code) then "error" else "success") ∧
    Message resp = getMessageForStatus (env_statusConfigMap env) code msg ∧
    Data resp = Some v ∧
    marshal (Response_Value resp) = Err e ∧
    let failure :=
      {| log_ctx := match r with Some r => Ctx r | None => Background end;
         log_level := slog.LevelError;
         log_msg := "Failed to encode JSON response";
         log_attrs := accumulatedAttrs resp (snapshotOf r) ++
                      [slog_Any_error "encoding_error" e] |} in
    t = prologue c r ++
        [ HeaderSet "Content-Type" "application/json";
          HeaderSet "X-Content-Type-Options" "nosniff";
          HeaderSet "Cache-Control" "no-cache, no-store, must-revalidate";
          WriteHeader code;
          Log failure ] ∧
    body t = "" ∧
    last t = Some (Log failure) ∧
    logged t = logged (prologue c r) ++ [failure] ∧
    ∀ rec, rec ∈ logged t → log_msg rec ∉ responseLogMessages.
Proof.
  intros Hv code t.
  assert (Hcode : effectiveCode c = code).
  { subst code. unfold effectiveCode. rewrite invalidCode_spec.
    repeat case_bool_decide; try done; lia. }
  set (resp := envelopeOf (env_statusConfigMap env) code msg (Some v) details).
  assert (He : marshal (Response_Value resp) = Err e).
  { apply marshal_Response_error_iff. by exists v. }
  exists resp.
  split. { by rewrite HTTPResponse_outcome, Hcode. }
  split; [done|].
  split. { unfold resp, envelopeOf. cbn [Status]. by rewrite geb_spec. }
  split; [done|]. split; [done|]. split; [exact He|].
  intros failure.
  assert (Ht : t = prologue c r ++
                   [ HeaderSet "Content-Type" "application/json";
                     HeaderSet "X-Content-Type-Options" "nosniff";
                     HeaderSet "Cache-Control" "no-cache, no-store, must-revalidate";
                     WriteHeader code;
                     Log failure ]).
  { subst t. rewrite HTTPResponse_trace. cbv zeta. rewrite Hcode.
    unfold epilogue. fold resp. rewrite He. reflexivity. }
  split; [exact Ht|].
  split. { subst t. rewrite HTTPResponse_body, Hcode. fold resp. by rewrite He. }
  split.
  { rewrite Ht.
    match goal with |- last (?l ++ [?a1; ?a2; ?a3; ?a4; ?b]) = _ =>
      replace (l ++ [a1; a2; a3; a4; b]) with ((l ++ [a1; a2; a3; a4]) ++ [b])
        by (by rewrite <- !app_assoc) end.
    apply last_snoc. }
  assert (Hlogged : logged t = logged (prologue c r) ++ [failure]).
  { rewrite Ht, !logged_app. reflexivity. }
  split; [exact Hlogged|].
  intros rec. rewrite Hlogged, elem_of_app, list_elem_of_singleton.
  intros [Hrec | ->].
  - by apply prologue_logged_warnings in Hrec as [_ ?].
  - unfold responseLogMessages. cbn.
    rewrite !elem_of_cons, elem_of_nil. intros [?|[?|[?|[]]]]; discriminate.
Qed.

Lemma encode_failure_is_logged_and_contained_witness :
  marshal VChan = Err (UnsupportedTypeError "chan") ∧
  body (trace (HTTPResponse None 404 "" (Some VChan) ∅) defaultEnv) = "" ∧
  ∃ rec, last (trace (HTTPResponse None 404 "" (Some VChan) ∅) defaultEnv)
           = Some (Log rec) ∧
         log_level rec = slog.LevelError.
Proof.
  split; [reflexivity|].
  pose proof (encode_failure_is_logged_and_contained defaultEnv None 404 ""
                VChan ∅ (UnsupportedTypeError "chan") eq_refl) as Hrun.
  cbv zeta in Hrun.
  destruct Hrun as (resp & _ & _ & _ & _ & _ & _ & _ & Hbody & Hlast & _).
  split; [exact Hbody|].
  eexists. split; [exact Hlast|reflexivity].
Defined.

(** C10, as amended: what [HTTPResponse] does to the response writer
    (the three headers, the status line and the body) and the envelope
    it builds are determined by the status code, the message, the data,
    the details and the content of the status registry: two calls that
    agree on these give the same writer calls and the same envelope,
    whatever their requests, nil or not, and whatever the writer
    answers; the request reaches the log records only. *)
Theorem response_independent_of_request `{GoLib}
    (env1 env2 : Env) (r1 r2 : option Request) (c : Z) (msg : string)
    (data : option Value) (details : gmap string string) :
  env_statusConfigMap env1 = env_statusConfigMap env2 →
  written (trace (HTTPResponse r1 c msg data details) env1) =
  written (trace (HTTPResponse r2 c msg data details) env2) ∧
  outcome (HTTPResponse r1 c msg data details) env1 =
  outcome (HTTPResponse r2 c msg data details) env2 ∧
  statusLines (trace (HTTPResponse r1 c msg data details) env1) =
    [if bool_decide (100 ≤ c ≤ 599) then c else 500] ∧
  headersSet (trace (HTTPResponse r1 c msg data details) env1) =
    [ ("Content-Type", "application/json");
      ("X-Content-Type-Options", "nosniff");
      ("Cache-Control", "no-cache, no-store, must-revalidate") ].
Proof.
  intros Hreg.
  rewrite !HTTPResponse_outcome, HTTPResponse_statusLines, !HTTPResponse_trace.
  cbv zeta. rewrite Hreg.
  rewrite !written_app, !prologue_written, !epilogue_written_cases.
  split; [done|]. split; [done|]. split.
  - unfold effectiveCode. rewrite invalidCode_spec.
    repeat case_bool_decide; try done; lia.
  - rewrite !headersSet_app, prologue_headersSet, epilogue_headersSet.
    reflexivity.
Qed.

Lemma response_independent_of_request_witness :
  env_statusConfigMap defaultEnv =
    env_statusConfigMap {| env_statusConfigMap := statusConfigMap;
                           env_write_err := Some (WriteError "broken pipe") |} ∧
  written (trace (HTTPResponse None 404 "" None ∅) defaultEnv) =
  written (trace (HTTPResponse (Some req_test) 404 "" None ∅)
             {| env_statusConfigMap := statusConfigMap;
                env_write_err := Some (WriteError "broken pipe") |}).
Proof.
  split; [reflexivity|].
  apply (response_independent_of_request defaultEnv
           {| env_statusConfigMap := statusConfigMap;
              env_write_err := Some (WriteError "broken pipe") |}
           None (Some req_test) 404 "" None ∅).
  reflexivity.
Defined.

(** C10, as it is written, fails: the four arguments alone do not
    determine the response.  The same call, with the unregistered code
    418 and an empty message, writes a different body before and after
    a configuration for 418 has been registered. *)
Lemma response_depends_on_registry :
  ¬ (written (trace (HTTPResponse None 418 "" None ∅) defaultEnv) =
     written (trace (HTTPResponse None 418 "" None ∅)
                (AddStatusConfig 418
                   {| LogLevel := slog.LevelWarn;
                      DefaultMessage := "I am a teapot";
                      ErrorType := "teapot" |} defaultEnv).1)).
Proof. intros Heq. vm_compute in Heq. discriminate Heq. Qed.
